(** * SKLearnForQlik: a shallow embedding of [core/_sklearn.py]

    The class [SKLearnForQlik] keeps named models in a class-level
    [OrderedDict] cache backed by a directory of snapshots, and drives
    scikit-learn pipelines from string arguments.  This development embeds
    the methods of the class as state-passing functions and proves
    properties of the cache, the parameter handling, the training and the
    prediction paths.

    Conventions.
    - Python objects that are shared and mutated ([PersistentModel]
      instances, the feature-definition [DataFrame]) live in heaps and are
      handled through references.
    - An exception aborts the method but keeps every mutation done so far.
    - Collaborators whose code is outside the class ([_utils], [locale],
      pandas on sample data, scikit-learn, log files) are fields of the
      class [Externals]. *)

From Stdlib Require Import ZArith SpecFloat Ascii String DecimalString.
From stdpp Require Import base option list gmap strings.

Local Open Scope string_scope.
Local Open Scope Z_scope.
Local Open Scope list_scope.

(** ** Exceptions and results *)

Inductive exn : Type :=
| AttributeError (obj attr : string)
| KeyError (key : string)
| IndexError (msg : string)
| NotFoundError (name : string)
| NotFittedError
| DanglingReference
| ExternalError (msg : string).

Inductive result (A : Type) : Type :=
| Ok (a : A)
| Raise (e : exn).
Arguments Ok {A} a.
Arguments Raise {A} e.

Definition is_raise {A} (r : result A) : bool :=
  match r with Ok _ => false | Raise _ => true end.

(** ** Values held in attributes *)

(** A typed hyper-parameter, as produced by [utils.get_kwargs_by_type]. *)
Inductive atom : Type :=
| ABool (b : bool)
| AInt (z : Z)
| AFloat (f : spec_float)
| AStr (s : string).

Definition mloc := nat.
Definition floc := nat.

(** One row of the feature definitions, with the columns of
    [set_features]: model_name, name, variable_type, data_type,
    feature_strategy, hash_features. *)
Record FeatRow : Type := {
  fr_model_name : string;
  fr_name : string;
  fr_variable_type : string;
  fr_data_type : string;
  fr_feature_strategy : string;
  fr_hash_features : Z
}.

(** An index or column label of a DataFrame: a position of the default
    range index, or a name. *)
Inductive label : Type :=
| LPos (i : nat)
| LName (s : string).

(** The feature-definition DataFrame: its rows with their index labels, and
    the column [sort_order] that [get_features] adds ([None] while the
    frame has no such column). *)
Record FeatureFrame : Type := {
  frows : list (label * FeatRow);
  sort_order : option (list Z)
}.

Section Objects.

(** Sample tables (pandas) and constructed transformer / estimator
    objects (scikit-learn) are opaque. *)
Context {Table Step : Type}.

(** [sklearn.pipeline.Pipeline]: the named steps, and whether the call of
    [fit] at line 369 has returned on this object.  The class does not test
    this; the object is handed to the library as it is. *)
Record Pipeline : Type := {
  steps : list (string * Step);
  fitted : bool
}.

Inductive value : Type :=
| VBool (b : bool)
| VInt (z : Z)
| VFloat (f : spec_float)
| VStr (s : string)
| VKwargs (kw : gmap string atom)
| VFrame (l : floc)
| VData (t : Table)
| VPipe (p : Pipeline).

(** Python truth value, as tested by [if x:]. *)
Definition truthy (v : value) : bool :=
  match v with
  | VBool b => b
  | VInt z => negb (z =? 0)
  | VFloat f =>
      match f with S754_zero _ => false | _ => true end
  | VStr s => negb (String.eqb s "")
  | VKwargs kw => negb (bool_decide (kw = ∅))
  | VFrame _ | VData _ | VPipe _ => true
  end.

(** A [PersistentModel] instance: its name and its attribute dictionary. *)
Record Model : Type := {
  name : string;
  attrs : gmap string value
}.

Definition set_attr (a : string) (v : value) (m : Model) : Model :=
  {| name := name m; attrs := <[a := v]> (attrs m) |}.

(** A snapshot on disk holds the model and a copy of its feature
    definitions. *)
Record Snapshot : Type := {
  snap_model : Model;
  snap_features : option FeatureFrame
}.

(** What the methods write: standard output, the debug log, and the table
    description sent to the caller. *)
Inductive event : Type :=
| Stdout (s : string)
| Log (step : nat)
| TableDescription (variant : string) (rows : nat).

Record State : Type := {
  (* class attributes *)
  log_no : nat;
  model_cache : list (string * mloc);
  (* objects *)
  models : list Model;
  frames : list FeatureFrame;
  (* the model directory *)
  disk : gmap string Snapshot;
  clock : Z;
  (* instance attributes *)
  self_model : mloc;
  logfile : option nat;
  (* output *)
  out : list event
}.

Definition set_log_no (v : nat) (s : State) : State :=
  {| log_no := v; model_cache := model_cache s; models := models s;
     frames := frames s; disk := disk s; clock := clock s;
     self_model := self_model s; logfile := logfile s; out := out s |}.
Definition set_model_cache (v : list (string * mloc)) (s : State) : State :=
  {| log_no := log_no s; model_cache := v; models := models s;
     frames := frames s; disk := disk s; clock := clock s;
     self_model := self_model s; logfile := logfile s; out := out s |}.
Definition set_models (v : list Model) (s : State) : State :=
  {| log_no := log_no s; model_cache := model_cache s; models := v;
     frames := frames s; disk := disk s; clock := clock s;
     self_model := self_model s; logfile := logfile s; out := out s |}.
Definition set_frames (v : list FeatureFrame) (s : State) : State :=
  {| log_no := log_no s; model_cache := model_cache s; models := models s;
     frames := v; disk := disk s; clock := clock s;
     self_model := self_model s; logfile := logfile s; out := out s |}.
Definition set_disk (v : gmap string Snapshot) (s : State) : State :=
  {| log_no := log_no s; model_cache := model_cache s; models := models s;
     frames := frames s; disk := v; clock := clock s;
     self_model := self_model s; logfile := logfile s; out := out s |}.
Definition set_clock (v : Z) (s : State) : State :=
  {| log_no := log_no s; model_cache := model_cache s; models := models s;
     frames := frames s; disk := disk s; clock := v;
     self_model := self_model s; logfile := logfile s; out := out s |}.
Definition set_self_model (v : mloc) (s : State) : State :=
  {| log_no := log_no s; model_cache := model_cache s; models := models s;
     frames := frames s; disk := disk s; clock := clock s;
     self_model := v; logfile := logfile s; out := out s |}.
Definition set_logfile (v : option nat) (s : State) : State :=
  {| log_no := log_no s; model_cache := model_cache s; models := models s;
     frames := frames s; disk := disk s; clock := clock s;
     self_model := self_model s; logfile := v; out := out s |}.
Definition set_out (v : list event) (s : State) : State :=
  {| log_no := log_no s; model_cache := model_cache s; models := models s;
     frames := frames s; disk := disk s; clock := clock s;
     self_model := self_model s; logfile := logfile s; out := v |}.

(** ** The method monad: state that survives an exception *)

Definition M (A : Type) : Type := State → result A * State.

#[export] Instance M_ret : MRet M := λ A a s, (Ok a, s).
#[export] Instance M_bind : MBind M := λ A B f m s,
  match m s with
  | (Ok a, s') => f a s'
  | (Raise e, s') => (Raise e, s')
  end.

Definition raise {A} (e : exn) : M A := λ s, (Raise e, s).
Definition gets {A} (f : State → A) : M A := λ s, (Ok (f s), s).
Definition modify (f : State → State) : M unit := λ s, (Ok tt, f s).
Definition lift {A} (r : result A) : M A := λ s, (r, s).
Definition emit (e : event) : M unit :=
  modify (λ s, set_out (out s ++ [e]) s).
Definition when (b : bool) (c : M unit) : M unit :=
  if b then c else mret tt.

(** *** Object access *)

Definition deref (l : mloc) : M Model :=
  ms ← gets models;
  match ms !! l with
  | Some m => mret m
  | None => raise DanglingReference
  end.

Definition update_model (l : mloc) (f : Model → Model) : M unit :=
  m ← deref l;
  modify (λ s, set_models (<[l := f m]> (models s)) s).

Definition alloc_model (m : Model) : M mloc :=
  ms ← gets models;
  modify (λ s, set_models (models s ++ [m]) s);;
  mret (length ms).

Definition deref_frame (l : floc) : M FeatureFrame :=
  fs ← gets frames;
  match fs !! l with
  | Some f => mret f
  | None => raise DanglingReference
  end.

Definition update_frame (l : floc) (f : FeatureFrame → FeatureFrame) : M unit :=
  d ← deref_frame l;
  modify (λ s, set_frames (<[l := f d]> (frames s)) s).

Definition alloc_frame (d : FeatureFrame) : M floc :=
  fs ← gets frames;
  modify (λ s, set_frames (frames s ++ [d]) s);;
  mret (length fs).

(** [self.model.<a>]: reading an attribute that was never assigned raises
    [AttributeError]. *)
Definition getattr (m : Model) (a : string) : M value :=
  match attrs m !! a with
  | Some v => mret v
  | None => raise (AttributeError "PersistentModel" a)
  end.

Definition model_getattr (a : string) : M value :=
  l ← gets self_model;
  m ← deref l;
  getattr m a.

Definition model_setattr (a : string) (v : value) : M unit :=
  l ← gets self_model;
  update_model l (set_attr a v).

Definition model_name : M string :=
  l ← gets self_model;
  m ← deref l;
  mret (name m).

End Objects.

Arguments Pipeline : clear implicits.
Arguments value : clear implicits.
Arguments Model : clear implicits.
Arguments Snapshot : clear implicits.
Arguments State : clear implicits.
Arguments M : clear implicits.

(** ** Python built-ins used by the class *)

(** [str.lower], on ASCII letters. *)
Definition lower_ascii (c : ascii) : ascii :=
  let n := Ascii.nat_of_ascii c in
  if (Nat.leb 65 n && Nat.leb n 90)%bool then Ascii.ascii_of_nat (n + 32) else c.

Fixpoint lower (s : string) : string :=
  match s with
  | EmptyString => EmptyString
  | String c r => String (lower_ascii c) (lower r)
  end.

(** [s.split(sep)] for a one-character separator. *)
Fixpoint split (sep : ascii) (s : string) : list string :=
  match s with
  | EmptyString => [EmptyString]
  | String c r =>
      if Ascii.eqb c sep then EmptyString :: split sep r
      else match split sep r with
           | h :: t => String c h :: t
           | [] => [String c EmptyString]
           end
  end.

(** [sep.join(l)]. *)
Fixpoint join (sep : string) (l : list string) : string :=
  match l with
  | [] => ""
  | [x] => x
  | x :: r => x +:+ sep +:+ join sep r
  end.

(** [s[n:]]. *)
Fixpoint drop_chars (n : nat) (s : string) : string :=
  match n, s with
  | O, _ => s
  | S _, EmptyString => EmptyString
  | S k, String _ r => drop_chars k r
  end.

(** The float literal [0.33]: the binary64 number nearest to 33/100. *)
Definition float_0_33 : spec_float := S754_finite false 5944751508129055 (-54).

(** ** [format(x, ".3f")] on floats *)

(** The integer nearest to [m * 2^e * 1000], ties to the even one: the
    thousandths of a finite float after correct rounding. *)
Definition round_milli (m : positive) (e : Z) : Z :=
  let n := Z.pos m * 1000 in
  if 0 <=? e then n * 2 ^ e
  else
    let d := 2 ^ (- e) in
    let q := n / d in
    let r := n mod d in
    if 2 * r <? d then q
    else if d <? 2 * r then q + 1
    else if Z.even q then q else q + 1.

Definition digit (n : Z) : ascii :=
  Ascii.ascii_of_nat (48 + Z.to_nat (n mod 10)).

(** The decimal writing of a natural number. *)
Definition decimal (n : Z) : string :=
  DecimalString.NilZero.string_of_uint (N.to_uint (Z.to_N n)).

(** [k] thousandths, written with three decimals. *)
Definition fixed3 (k : Z) : string :=
  decimal (k / 1000) +:+ "." +:+
  String (digit (k / 100)) (String (digit (k / 10)) (String (digit k) "")).

Definition sign_prefix (s : bool) : string := if s then "-" else "".

Definition format_3f (x : spec_float) : string :=
  match x with
  | S754_nan => "nan"
  | S754_infinity s => sign_prefix s +:+ "inf"
  | S754_zero s => sign_prefix s +:+ "0.000"
  | S754_finite s m e => sign_prefix s +:+ fixed3 (round_milli m e)
  end.

Definition is_digit (c : ascii) : bool :=
  let n := Ascii.nat_of_ascii c in (Nat.leb 48 n && Nat.leb n 57)%bool.





(** ** [collections.OrderedDict], oldest entry first *)

Section OrderedDict.
Context {V : Type}.

Definition odict_get (d : list (string * V)) (k : string) : option V :=
  snd <$> List.find (λ kv, String.eqb (fst kv) k) d.

Definition odict_contains (d : list (string * V)) (k : string) : bool :=
  bool_decide (is_Some (odict_get d k)).

(** [del d[k]]. *)
Definition odict_del (d : list (string * V)) (k : string) : list (string * V) :=
  List.filter (λ kv, negb (String.eqb (fst kv) k)) d.

(** [d[k] = v]: a present key keeps its position, a new key goes last. *)
Fixpoint odict_set (d : list (string * V)) (k : string) (v : V) : list (string * V) :=
  match d with
  | [] => [(k, v)]
  | (k', v') :: r =>
      if String.eqb k' k then (k, v) :: r else (k', v') :: odict_set r k v
  end.

(** [d.popitem(last=False)]: drop the first entry. *)
Definition odict_popitem_first (d : list (string * V)) : list (string * V) :=
  List.tl d.

Definition odict_keys (d : list (string * V)) : list string := List.map fst d.
End OrderedDict.

(** ** The class attributes that are constants *)

(** Limit on the number of models to be cached. *)
Definition cache_limit : nat := 3.

(** The keys of [self.algorithms]. *)
Definition algorithms : list string :=
  [ "DummyClassifier"; "DummyRegressor"; "AdaBoostClassifier"; "AdaBoostRegressor";
    "BaggingClassifier"; "BaggingRegressor"; "ExtraTreesClassifier"; "ExtraTreesRegressor";
    "GradientBoostingClassifier"; "GradientBoostingRegressor";
    "RandomForestClassifier"; "RandomForestRegressor"; "VotingClassifier";
    "GaussianProcessClassifier"; "GaussianProcessRegressor"; "LinearRegression";
    "LogisticRegression"; "LogisticRegressionCV"; "PassiveAggressiveClassifier";
    "PassiveAggressiveRegressor"; "Perceptron"; "RANSACRegressor"; "Ridge";
    "RidgeClassifier"; "RidgeCV"; "RidgeClassifierCV"; "SGDClassifier"; "SGDRegressor";
    "TheilSenRegressor"; "BernoulliNB"; "GaussianNB"; "MultinomialNB";
    "KNeighborsClassifier"; "KNeighborsRegressor"; "RadiusNeighborsClassifier";
    "RadiusNeighborsRegressor"; "BernoulliRBM"; "MLPClassifier"; "MLPRegressor";
    "LinearSVC"; "LinearSVR"; "NuSVC"; "NuSVR"; "SVC"; "SVR";
    "DecisionTreeClassifier"; "DecisionTreeRegressor"; "ExtraTreeClassifier";
    "ExtraTreeRegressor" ].

(** The keys of [self.decomposers]. *)
Definition decomposers : list string :=
  [ "PCA"; "KernelPCA"; "IncrementalPCA"; "TruncatedSVD" ].

(** [table[key]] on one of the two dictionaries above: the class registered
    under [key] (identified by its name), or [KeyError(key)]. *)
Definition registry_lookup (table : list string) (key : string) : result string :=
  if bool_decide (key ∈ table) then Ok key else Raise (KeyError key).

(** ** Collaborators *)

Class Externals (Table Step : Type) : Type := {
  (* _utils *)
  get_kwargs : string → result (gmap string string);
  get_kwargs_by_type : gmap string string → result (gmap string atom);
  convert_types : Table → FeatureFrame → result Table;
  (* locale *)
  atof : string → result spec_float;
  atoi : string → result Z;
  (* pandas, on sample data: DataFrame(data, columns, index), selection of
     columns by label *)
  pd_DataFrame : list (list string) → list label → list label → result Table;
  table_columns : Table → list label → result Table;
  (* scikit-learn and the Preprocessor of _machine_learning *)
  train_test_split :
    Table → Table → value Table Step → value Table Step →
    result (Table * Table * Table * Table);
  Preprocessor :
    FeatureFrame → value Table Step → value Table Step → value Table Step →
    value Table Step → result Step;
  construct : string → value Table Step → result Step;
  pipeline_insert :
    Pipeline Step → nat → string * Step → result (value Table Step);
  steps_fit : list (string * Step) → Table → Table → result (list (string * Step));
  pipe_score : Pipeline Step → Table → Table → result spec_float;
  pipe_predict : Pipeline Step → Table → result (list atom);
  pipe_predict_proba : Pipeline Step → Table → result (list (list spec_float));
  pipe_predict_log_proba : Pipeline Step → Table → result (list (list spec_float));
  classes_ : Step → result (list string);
  (* the debug log *)
  write_log : nat → option (Model Table Step) → result unit
}.

(** ** The methods of [SKLearnForQlik] *)

Section Methods.
Context {Table Step : Type} {E : Externals Table Step}.

#[local] Abbreviation M := (M Table Step).
#[local] Abbreviation value := (value Table Step).
#[local] Abbreviation Model := (Model Table Step).
#[local] Abbreviation State := (State Table Step).

(** *** Typed views of attribute values *)

Definition as_frame (v : value) : M floc :=
  match v with
  | VFrame l => mret l
  | _ => raise (AttributeError "object" "loc")
  end.

Definition as_pipe (v : value) : M (Pipeline Step) :=
  match v with
  | VPipe p => mret p
  | _ => raise (AttributeError "object" "steps")
  end.

Definition as_index (v : value) : M nat :=
  match v with
  | VInt z => if 0 <=? z then mret (Z.to_nat z) else raise (IndexError "list index out of range")
  | _ => raise (IndexError "list indices must be integers")
  end.

(** *** [_print_log] *)

(** The first message of an instance names its log file after the class
    counter; the text written for [step] is left to [write_log]. *)
Definition _print_log (step : nat) : M unit :=
  lf ← gets logfile;
  when (bool_decide (lf = None))
    (modify (λ s, set_log_no (S (log_no s)) s);;
     n ← gets log_no;
     modify (set_logfile (Some n)));;
  l ← gets self_model;
  ms ← gets models;
  lift (write_log step (ms !! l));;
  emit (Log step).

(** [if self.model.debug: self._print_log(step)]. *)
Definition debug_log (step : nat) : M unit :=
  d ← model_getattr "debug";
  when (truthy d) (_print_log step).

(** *** [_print_exception] *)

(** The message goes to standard output; then the method reads
    [self.debug].  No statement of the class assigns an attribute [debug]
    of the instance (the flag is [self.model.debug]), so this read raises
    [AttributeError] and the write to the log file is not reached. *)
Definition _print_exception (s : string) : M unit :=
  emit (Stdout s);;
  raise (AttributeError "SKLearnForQlik" "debug").

(** *** [_send_table_description] *)

Definition _send_table_description (variant : string) (rows : nat) : M unit :=
  debug_log 5;;
  emit (TableDescription variant rows).

(** *** [PersistentModel] *)

(** Modelled from the spec: the class [PersistentModel] of
    [_machine_learning] is not part of the sources.  A new model has no
    configuration: every attribute the methods read is assigned by them
    first. *)
Definition PersistentModel_new : M mloc :=
  alloc_model {| name := ""; attrs := ∅ |}.

(** [self.model = PersistentModel(); self.model.name = n], the opening of
    every method. *)
Definition new_model (n : string) : M unit :=
  l ← PersistentModel_new;
  modify (set_self_model l);;
  update_model l (λ m, {| name := n; attrs := attrs m |}).

(** Modelled from the spec: [PersistentModel.save] is not part of the
    sources.  It writes a snapshot of the full model (configuration,
    feature definitions, trained pipeline) under the model's name, stamps
    the model with the time of the save, and returns the model. *)
Definition save : M mloc :=
  l ← gets self_model;
  _ ← model_getattr "compress";
  t ← gets clock;
  modify (λ s, set_clock (clock s + 1) s);;
  update_model l (set_attr "state_timestamp" (VInt t));;
  m ← deref l;
  feats ← match attrs m !! "features_df" with
          | Some (VFrame fl) => d ← deref_frame fl; mret (Some d)
          | _ => mret None
          end;
  modify (λ s, set_disk (<[name m := {| snap_model := m; snap_features := feats |}]> (disk s)) s);;
  mret l.

(** Modelled from the spec: [PersistentModel.load] is not part of the
    sources.  It rebuilds a model from the snapshot stored under the
    name, as new objects, and fails when there is no snapshot. *)
Definition load (n : string) : M mloc :=
  d ← gets disk;
  match d !! n with
  | None => raise (NotFoundError n)
  | Some snap =>
      m ← match snap_features snap with
          | Some df => fl ← alloc_frame df;
                       mret (set_attr "features_df" (VFrame fl) (snap_model snap))
          | None => mret {| name := name (snap_model snap);
                            attrs := delete "features_df" (attrs (snap_model snap)) |}
          end;
      alloc_model m
  end.

(** *** [_update_cache] *)

Definition _update_cache : M unit :=
  (* Check if the model cache is full *)
  cache ← gets model_cache;
  when (Nat.eqb cache_limit (length cache))
    (modify (λ s, set_model_cache (odict_popitem_first (model_cache s)) s));;
  (* Remove the obsolete version of the model from the cache *)
  n ← model_name;
  cache ← gets model_cache;
  when (odict_contains cache n)
    (modify (λ s, set_model_cache (odict_del (model_cache s) n) s));;
  (* Add the current model to the cache *)
  l ← gets self_model;
  modify (λ s, set_model_cache (odict_set (model_cache s) n l) s);;
  debug_log 8.

(** *** [_get_model] *)

Definition _get_model : M unit :=
  n ← model_name;
  cache ← gets model_cache;
  match odict_get cache n with
  | Some l =>
      (* Load the model from cache *)
      modify (set_self_model l);;
      debug_log 6
  | None =>
      (* Load the model from disk *)
      l ← load n;
      modify (set_self_model l);;
      debug_log 7;;
      (* Update the cache to keep this model in memory *)
      _update_cache
  end.

(** *** [_set_params] *)

(** [if k in d: f(d[k])]. *)
Definition if_key (d : gmap string string) (k : string) (f : string → M unit) : M unit :=
  match d !! k with
  | Some v => f v
  | None => mret tt
  end.

(** Lines 562-570: the defaults of the execution parameters. *)
Definition default_execution_params : M unit :=
  model_setattr "overwrite" (VBool false);;
  model_setattr "debug" (VBool false);;
  model_setattr "test_size" (VFloat float_0_33);;
  model_setattr "random_state" (VInt 42);;
  model_setattr "compress" (VInt 3);;
  model_setattr "retain_data" (VBool false).

(** Lines 572-620: the execution parameters passed in the request. *)
Definition set_execution_params (execution_args : string) : M unit :=
  when (Nat.ltb 0 (String.length execution_args))
    (execution_args ← lift (get_kwargs execution_args);
     if_key execution_args "overwrite" (λ v,
       model_setattr "overwrite" (VBool (String.eqb "true" (lower v))));;
     if_key execution_args "test_size" (λ v,
       x ← lift (atof v); model_setattr "test_size" (VFloat x));;
     if_key execution_args "random_state" (λ v,
       x ← lift (atoi v); model_setattr "random_state" (VInt x));;
     if_key execution_args "compress" (λ v,
       x ← lift (atoi v); model_setattr "compress" (VInt x));;
     if_key execution_args "retain_data" (λ v,
       model_setattr "retain_data" (VBool (String.eqb "true" (lower v))));;
     if_key execution_args "debug" (λ v,
       model_setattr "debug" (VBool (String.eqb "true" (lower v)));;
       d ← model_getattr "debug";
       when (truthy d)
         (modify (λ s, set_log_no (S (log_no s)) s);;
          n ← gets log_no;
          modify (set_logfile (Some n));;
          _print_log 1))).

(** Lines 622-644: the scaler and its arguments. *)
Definition set_scaler_params (scaler_args : string) : M unit :=
  when (Nat.ltb 0 (String.length scaler_args))
    (scaler_args ← lift (get_kwargs scaler_args);
     match scaler_args !! "scaler" with
     | Some v =>
         model_setattr "scaler" (VStr v);;
         let scaler_args := delete "scaler" scaler_args in
         if_key scaler_args "missing" (λ v,
           model_setattr "missing" (VStr (lower v)));;
         let scaler_args := delete "missing" scaler_args in
         if_key scaler_args "scale_hashed" (λ v,
           model_setattr "scale_hashed" (VBool (String.eqb "true" (lower v))));;
         let scaler_args := delete "scale_hashed" scaler_args in
         kw ← lift (get_kwargs_by_type scaler_args);
         model_setattr "scaler_kwargs" (VKwargs kw)
     | None =>
         _print_exception
           "Arguments for scaling did not include the scaler name e.g StandardScaler"
     end).

(** Lines 646-662: the estimator and its arguments. *)
Definition set_estimator_params (estimator_args : string) : M unit :=
  when (Nat.ltb 0 (String.length estimator_args))
    (estimator_args ← lift (get_kwargs estimator_args);
     match estimator_args !! "estimator" with
     | Some v =>
         model_setattr "estimator" (VStr v);;
         kw ← lift (get_kwargs_by_type (delete "estimator" estimator_args));
         model_setattr "estimator_kwargs" (VKwargs kw)
     | None =>
         _print_exception
           "Arguments for estimator did not include the estimator class e.g. RandomForestClassifier"
     end).

(** Lines 664-680: the dimensionality reduction and its arguments. *)
Definition set_dim_reduction_params (dim_reduction_args : option string) : M unit :=
  match dim_reduction_args with
  | Some dim_reduction_args =>
      dim_reduction_args ← lift (get_kwargs dim_reduction_args);
      match dim_reduction_args !! "reduction" with
      | Some v =>
          model_setattr "reduction" (VStr v);;
          kw ← lift (get_kwargs_by_type (delete "reduction" dim_reduction_args));
          model_setattr "dim_reduction_args" (VKwargs kw)
      | None =>
          _print_exception
            "Arguments for dimensionality reduction did not include the class e.g. PCA"
      end
  | None => mret tt
  end.

Definition _set_params (estimator_args scaler_args execution_args : string)
    (dim_reduction_args : option string) : M unit :=
  default_execution_params;;
  set_execution_params execution_args;;
  set_scaler_params scaler_args;;
  set_estimator_params estimator_args;;
  set_dim_reduction_params dim_reduction_args;;
  debug_log 2.

(** *** Requests and responses *)

(** The first row of a [setup] request. *)
Record SetupRow : Type := {
  su_model_name : string;
  su_estimator_args : string;
  su_scaler_args : string;
  su_dim_reduction_args : string;
  su_execution_args : string
}.

(** A response table: one list of cells per row. *)
Definition Response : Type := list (list atom).

(** [request_df.loc[0, 'model_name']]: the name comes from the first row. *)
Definition first_row {A} (req : list A) : M A :=
  match req with
  | r :: _ => mret r
  | [] => raise (KeyError "0")
  end.

(** The time-stamp cell of a status row, before [time.strftime]. *)
Definition time_cell (v : value) : atom :=
  match v with
  | VInt t => AInt t
  | _ => AStr ""
  end.

(** *** [setup] *)

Definition setup (dim_reduction : bool) (req : list SetupRow) : M Response :=
  r ← first_row req;
  (* Create a model that can be persisted to disk *)
  new_model (su_model_name r);;
  (* Set the relevant parameters using the argument strings *)
  (if dim_reduction then
     _set_params (su_estimator_args r) (su_scaler_args r) (su_execution_args r)
       (Some (su_dim_reduction_args r));;
     model_setattr "dim_reduction" (VBool true)
   else
     _set_params (su_estimator_args r) (su_scaler_args r) (su_execution_args r) None;;
     model_setattr "dim_reduction" (VBool false));;
  (* Persist the model to disk *)
  l ← save;
  modify (set_self_model l);;
  (* Update the cache to keep this model in memory *)
  _update_cache;;
  n ← model_name;
  ts ← model_getattr "state_timestamp";
  let response := [[AStr n; AStr "Model successfully saved to disk"; time_cell ts]] in
  _send_table_description "setup" (length response);;
  debug_log 4;;
  mret response.

(** *** [set_features] *)

(** [df.set_index("name", drop=False, inplace=True)]. *)
Definition set_index_name (d : FeatureFrame) : FeatureFrame :=
  {| frows := List.map (λ r, (LName (fr_name (snd r)), snd r)) (frows d);
     sort_order := sort_order d |}.

(** The frame [utils.request_df] builds from the request rows, with the
    default range index. *)
Definition request_frame (req : list FeatRow) : FeatureFrame :=
  {| frows := imap (λ i r, (LPos i, r)) req; sort_order := None |}.

Definition set_features (req : list FeatRow) : M Response :=
  (* Create a Pandas Data Frame for the request data *)
  request_df ← alloc_frame (request_frame req);
  r ← first_row req;
  new_model (fr_model_name r);;
  (* Get the model from cache or disk *)
  _get_model;;
  debug_log 3;;
  (* Add the feature definitions to the model *)
  model_setattr "features_df" (VFrame request_df);;
  fv ← model_getattr "features_df";
  fl ← as_frame fv;
  update_frame fl set_index_name;;
  (* Persist the model to disk *)
  l ← save;
  modify (set_self_model l);;
  (* Update the cache to keep this model in memory *)
  _update_cache;;
  n ← model_name;
  ts ← model_getattr "state_timestamp";
  let response :=
    [[AStr n; AStr "Feature definitions successfully saved to model"; time_cell ts]] in
  _send_table_description "setup" (length response);;
  debug_log 4;;
  mret response.

(** *** [get_features] *)

(** [df["sort_order"] = pd.Series([i+1 for i in range(len(df.index))], index=df.index)]:
    the assignment changes the frame itself. *)
Definition assign_sort_order (d : FeatureFrame) : FeatureFrame :=
  {| frows := frows d;
     sort_order := Some (List.map (λ i, Z.of_nat i + 1) (seq 0 (length (frows d)))) |}.

(** [df[["model_name", "sort_order", "name", "variable_type", "data_type",
    "feature_strategy", "hash_features"]]]: a new table with these columns. *)
Definition features_table (d : FeatureFrame) : M Response :=
  match sort_order d with
  | None => raise (KeyError "sort_order")
  | Some so =>
      mret (zip_with (λ r o,
              [AStr (fr_model_name (snd r)); AInt o; AStr (fr_name (snd r));
               AStr (fr_variable_type (snd r)); AStr (fr_data_type (snd r));
               AStr (fr_feature_strategy (snd r)); AInt (fr_hash_features (snd r))])
            (frows d) so)
  end.

(** The rows of the response for the feature definitions [d]. *)
Definition response_rows (d : FeatureFrame) : Response :=
  zip_with (λ r o,
      [AStr (fr_model_name (snd r)); AInt o; AStr (fr_name (snd r));
       AStr (fr_variable_type (snd r)); AStr (fr_data_type (snd r));
       AStr (fr_feature_strategy (snd r)); AInt (fr_hash_features (snd r))])
    (frows d) (List.map (λ i, Z.of_nat i + 1) (seq 0 (length (frows d)))).

(** Lines 272-286: [self.response] is the frame of the model itself when
    the column is assigned, and a new table afterwards. *)
Definition prepare_features_response : M Response :=
  fv ← model_getattr "features_df";
  response ← as_frame fv;
  update_frame response assign_sort_order;;
  d ← deref_frame response;
  response ← features_table d;
  _send_table_description "features" (length response);;
  debug_log 4;;
  mret response.

Definition get_features (req : list string) : M Response :=
  n ← first_row req;
  new_model n;;
  (* Get the model from cache or disk *)
  _get_model;;
  debug_log 3;;
  (* Prepare the output *)
  prepare_features_response.

(** *** Operations on the feature definitions *)

(** [df.loc[mask]]: the rows, with their labels and cells, where the mask
    is set. *)
Fixpoint select {A} (mask : list bool) (l : list A) : list A :=
  match mask, l with
  | b :: mask', x :: l' => if b then x :: select mask' l' else select mask' l'
  | _, _ => []
  end.

Definition frame_loc (mask : list bool) (d : FeatureFrame) : FeatureFrame :=
  {| frows := select mask (frows d); sort_order := select mask <$> sort_order d |}.

Definition variable_types (d : FeatureFrame) : list string :=
  List.map (λ r, fr_variable_type (snd r)) (frows d).

(** [df["variable_type"] == "target"]. *)
Definition is_target (d : FeatureFrame) : list bool :=
  List.map (String.eqb "target") (variable_types d).

(** [df["variable_type"].isin(["excluded", "target", "identifier"])]. *)
Definition exclusions (d : FeatureFrame) : list bool :=
  List.map (λ t, bool_decide (t ∈ ["excluded"; "target"; "identifier"])) (variable_types d).

(** [df.index.tolist()] and [df.loc[:, "name"].tolist()]. *)
Definition frame_index (d : FeatureFrame) : list label := List.map fst (frows d).
Definition frame_names (d : FeatureFrame) : list label :=
  List.map (λ r, LName (fr_name (snd r))) (frows d).

(** [target.index[0]]. *)
Definition first_index (d : FeatureFrame) : M label :=
  match frame_index d with
  | l :: _ => mret l
  | [] => raise (IndexError "index 0 is out of bounds for axis 0 with size 0")
  end.

(** [self.model.features_df], dereferenced. *)
Definition model_features : M FeatureFrame :=
  fv ← model_getattr "features_df";
  fl ← as_frame fv;
  deref_frame fl.

(** *** [sklearn.pipeline.Pipeline] *)

(** [pipe.fit(X, y)] fits the steps of the pipeline object in place. *)
Definition Pipeline_fit (p : Pipeline Step) (X y : Table) : M (Pipeline Step) :=
  st ← lift (steps_fit (steps p) X y);
  mret {| steps := st; fitted := true |}.

(** [table[key]] with the key taken from an attribute. *)
Definition lookup_class (table : list string) (key : value) : M string :=
  match key with
  | VStr k => lift (registry_lookup table k)
  | _ => raise (KeyError "")
  end.

(** *** [fit] *)

(** Lines 313-337: the samples, the target column, and the feature
    definitions reduced to the features of the model. *)
Definition fit_prepare (req : list (string * string)) : M (Table * Table) :=
  (* Split the features provided as a string into individual columns *)
  d ← model_features;
  train_test_df ← lift (pd_DataFrame (List.map (λ x, split "|" (snd x)) req)
                          (frame_names d) (imap (λ i _, LPos i) req));
  (* Convert the data types based on feature definitions *)
  d ← model_features;
  train_test_df ← lift (convert_types train_test_df d);
  (* Get the target feature *)
  d ← model_features;
  d' ← model_features;
  target_name ← first_index (frame_loc (is_target d') d);
  (* Get the target data *)
  target_df ← lift (table_columns train_test_df [target_name]);
  (* Get the features to be excluded from the model *)
  d ← model_features;
  let exclusions := exclusions d in
  (* Update the feature definitions dataframe *)
  d ← model_features;
  new_df ← alloc_frame (frame_loc (List.map negb exclusions) d);
  model_setattr "features_df" (VFrame new_df);;
  (* Remove excluded features from the data *)
  d ← model_features;
  train_test_df ← lift (table_columns train_test_df (frame_index d));
  mret (train_test_df, target_df).

(** Lines 350-352: the [Preprocessor] built from the feature definitions,
    [scale_hashed], [missing], [scaler] and the scaler keyword arguments. *)
Definition construct_preprocessor : M Step :=
  d ← model_features;
  scale_hashed ← model_getattr "scale_hashed";
  missing ← model_getattr "missing";
  scaler ← model_getattr "scaler";
  scaler_kwargs ← model_getattr "scaler_kwargs";
  lift (Preprocessor d scale_hashed missing scaler scaler_kwargs).

(** Lines 354-355: the class [self.algorithms[self.model.estimator]]
    called with the estimator keyword arguments. *)
Definition construct_estimator : M Step :=
  name ← model_getattr "estimator";
  cls ← lookup_class algorithms name;
  kwargs ← model_getattr "estimator_kwargs";
  lift (construct cls kwargs).

(** Lines 362-363: the class [self.decomposers[self.model.reduction]]
    called with [self.model.dim_reduction_kwargs]. *)
Definition construct_reduction : M Step :=
  name ← model_getattr "reduction";
  cls ← lookup_class decomposers name;
  kwargs ← model_getattr "dim_reduction_kwargs";
  lift (construct cls kwargs).

(** Lines 350-367: the preprocessor, the estimator and the pipeline. *)
Definition fit_build : M unit :=
  (* Construct the preprocessor *)
  prep ← construct_preprocessor;
  (* Construct an estimator *)
  estimator ← construct_estimator;
  (* Construct a sklearn pipeline *)
  model_setattr "pipe"
    (VPipe {| steps := [("preprocessor", prep); ("estimator", estimator)]; fitted := false |});;
  model_setattr "estimation_step" (VInt 1);;
  dr ← model_getattr "dim_reduction";
  when (truthy dr)
    ((* Construct the dimensionality reduction object *)
     reduction ← construct_reduction;
     (* Include dimensionality reduction in the sklearn pipeline *)
     pv ← model_getattr "pipe";
     p ← as_pipe pv;
     r ← lift (pipeline_insert p 1 ("reduction", reduction));
     model_setattr "pipe" r;;
     model_setattr "estimation_step" (VInt 2)).

(** Lines 339-348: the split into training and testing subsets, kept in
    the model if [retain_data] is set. *)
Definition fit_split (train_test_df target_df : Table) : M (Table * Table * Table * Table) :=
  test_size ← model_getattr "test_size";
  random_state ← model_getattr "random_state";
  '(X_train, X_test, y_train, y_test) ←
    lift (train_test_split train_test_df target_df test_size random_state);
  (* Add the training and test data to the model if required *)
  retain ← model_getattr "retain_data";
  when (truthy retain)
    (model_setattr "X_train" (VData X_train);;
     model_setattr "X_test" (VData X_test);;
     model_setattr "y_train" (VData y_train);;
     model_setattr "y_test" (VData y_test));;
  mret (X_train, X_test, y_train, y_test).

(** Lines 369-373: the pipeline fitted on the training data and scored on
    the test data.  [fit] changes the pipeline object of the model. *)
Definition fit_train (X_train X_test y_train y_test : Table) : M unit :=
  (* Fit the training data to the pipeline *)
  pv ← model_getattr "pipe";
  p ← as_pipe pv;
  p ← Pipeline_fit p X_train y_train;
  model_setattr "pipe" (VPipe p);;
  (* Test the accuracy of the model using the test data *)
  pv ← model_getattr "pipe";
  p ← as_pipe pv;
  score ← lift (pipe_score p X_test y_test);
  model_setattr "score" (VFloat score).

(** The text of a value in a message. *)
Definition str_cell (v : value) : string :=
  match v with
  | VStr e => e
  | _ => ""
  end.

Definition format_score (v : value) : string :=
  match v with
  | VFloat f => format_3f f
  | _ => ""
  end.

Definition score_cell (v : value) : atom :=
  match v with
  | VFloat f => AFloat f
  | _ => AStr ""
  end.

Definition fit (req : list (string * string)) : M Response :=
  r ← first_row req;
  new_model (fst r);;
  (* Get the model from cache or disk *)
  _get_model;;
  debug_log 3;;
  '(train_test_df, target_df) ← fit_prepare req;
  (* Split the data into training and testing subsets *)
  '(X_train, X_test, y_train, y_test) ← fit_split train_test_df target_df;
  (* Construct the preprocessor, the estimator and the pipeline *)
  fit_build;;
  (* Fit the pipeline and test the accuracy of the model *)
  fit_train X_train X_test y_train y_test;;
  (* Persist the model to disk *)
  l ← save;
  modify (set_self_model l);;
  (* Update the cache to keep this model in memory *)
  _update_cache;;
  (* Prepare the output *)
  n ← model_name;
  ts ← model_getattr "state_timestamp";
  est ← model_getattr "estimator";
  score ← model_getattr "score";
  let response :=
    [[AStr n; AStr "Model successfully trained, tested and saved to disk."; time_cell ts;
      AStr (str_cell est +:+ " model has a " +:+ format_score score
            +:+ " accuracy against the test data.");
      score_cell score]] in
  _send_table_description "fit" (length response);;
  debug_log 4;;
  mret response.

(** *** [predict] *)

Record PredictRow : Type := {
  pr_model_name : string;
  pr_key : string;
  pr_n_features : string
}.

(** [self.model.pipe.steps[self.model.estimation_step][1].classes_[i]]. *)
Definition class_label (i : nat) : M string :=
  pv ← model_getattr "pipe";
  p ← as_pipe pv;
  ev ← model_getattr "estimation_step";
  k ← as_index ev;
  match steps p !! k with
  | None => raise (IndexError "list index out of range")
  | Some st =>
      cs ← lift (classes_ (snd st));
      match cs !! i with
      | Some c => mret c
      | None => raise (IndexError "index out of bounds")
      end
  end.

(** The inner loop of lines 462-466, with [s] and [i] as they stand when it
    reaches the values [a]. *)
Fixpoint format_classes (a : list spec_float) (s : string) (i : nat) : M string :=
  match a with
  | [] => mret s
  | b :: a' =>
      c ← class_label i;
      format_classes a' (s +:+ ", " +:+ c +:+ ": " +:+ format_3f b) (S i)
  end.

(** The outer loop: one string per sample. *)
Fixpoint format_probabilities (y : list (list spec_float)) : M (list string) :=
  match y with
  | [] => mret []
  | a :: y' =>
      s ← format_classes a "" 0%nat;
      rest ← format_probabilities y';
      mret (drop_chars 2 s :: rest)
  end.

Definition predict (load_script : bool) (variant : string) (req : list PredictRow)
    : M Response :=
  r ← first_row req;
  new_model (pr_model_name r);;
  (* Get the model from cache or disk *)
  _get_model;;
  debug_log 3;;
  (* The key column is the index if the call comes from the load script *)
  let index := if load_script then List.map (λ x, LName (pr_key x)) req
               else imap (λ i _, LPos i) req in
  (* Split the features provided as a string into individual columns *)
  d ← model_features;
  X ← lift (pd_DataFrame (List.map (λ x, split "|" (pr_n_features x)) req)
              (frame_names d) index);
  (* Convert the data types based on feature definitions *)
  d ← model_features;
  X ← lift (convert_types X d);
  y ← (if (String.eqb variant "predict_proba" || String.eqb variant "predict_log_proba")%bool
       then
         pv ← model_getattr "pipe";
         p ← as_pipe pv;
         y ← (if String.eqb variant "predict_proba"
              then lift (pipe_predict_proba p X)
              else lift (pipe_predict_log_proba p X));
         (* Prepare a list of probability by class for each sample *)
         probabilities ← format_probabilities y;
         mret (List.map AStr probabilities)
       else
         (* Predict y for X using the previously fit pipeline *)
         pv ← model_getattr "pipe";
         p ← as_pipe pv;
         lift (pipe_predict p X));
  (* Prepare the response *)
  if load_script then
    (* Add the key field column to the response *)
    let response :=
      zip_with (λ x v, [AStr (pr_model_name x); AStr (pr_key x); v]) req y in
    _send_table_description "predict" (length response);;
    debug_log 4;;
    mret response
  else
    debug_log 4;;
    mret (List.map (λ v, [v]) y).

End Methods.

(** ** Stand-ins for the collaborators

    Simple implementations of the collaborators, to run the methods on
    concrete requests.  Tables are lists of rows of strings; a constructed
    object is the name of its class and, once fitted, its classes. *)

Module Harness.

Record table : Type := {
  t_index : list label;
  t_columns : list label;
  t_rows : list (list string)
}.

Record step : Type := {
  st_class : string;
  st_classes : option (list string)
}.

Definition label_eqb (a b : label) : bool :=
  match a, b with
  | LPos i, LPos j => Nat.eqb i j
  | LName s, LName t => String.eqb s t
  | _, _ => false
  end.

Fixpoint strip_spaces (s : string) : string :=
  match s with
  | EmptyString => EmptyString
  | String c r => if Ascii.eqb c " " then strip_spaces r else String c (strip_spaces r)
  end.

(** Modelled from the spec: [utils.get_kwargs] is not part of the sources.
    It reads comma-separated [key=value] tokens, a later key replacing an
    earlier one, and fails on a token without [=]. *)
Fixpoint kwargs_of_tokens (tokens : list string) (acc : gmap string string)
    : result (gmap string string) :=
  match tokens with
  | [] => Ok acc
  | t :: r =>
      match split "=" t with
      | [k; v] => kwargs_of_tokens r (<[k := v]> acc)
      | _ => Raise (ExternalError ("malformed token: " +:+ t))
      end
  end.

Definition h_get_kwargs (s : string) : result (gmap string string) :=
  if String.eqb s "" then Ok ∅ else kwargs_of_tokens (split "," (strip_spaces s)) ∅.

(** The typed value of [value|type]; without a type the value stays a
    string here. *)
Definition typed (v : string) : atom :=
  match split "|" v with
  | [x; "bool"] => ABool (String.eqb "true" (lower x))
  | [x; _] => AStr x
  | _ => AStr v
  end.

Definition h_get_kwargs_by_type (d : gmap string string) : result (gmap string atom) :=
  Ok (typed <$> d).

Fixpoint digits_value (s : string) (acc : Z) : result Z :=
  match s with
  | EmptyString => Ok acc
  | String c r =>
      if is_digit c then digits_value r (10 * acc + Z.of_nat (Ascii.nat_of_ascii c) - 48)
      else Raise (ExternalError "invalid literal for int()")
  end.

Definition h_atoi (s : string) : result Z :=
  if String.eqb s "" then Raise (ExternalError "invalid literal for int()")
  else digits_value s 0.

Definition h_atof (s : string) : result spec_float :=
  if String.eqb s "0.33" then Ok float_0_33
  else if String.eqb s "0.5" then Ok (S754_finite false 1 (-1))
  else if String.eqb s "0.25" then Ok (S754_finite false 1 (-2))
  else Raise (ExternalError "could not convert string to float").

Definition h_DataFrame (data : list (list string)) (columns index : list label)
    : result table :=
  if forallb (λ r, Nat.eqb (length r) (length columns)) data
  then Ok {| t_index := index; t_columns := columns; t_rows := data |}
  else Raise (ExternalError "columns passed do not match the data").

Fixpoint position (l : label) (cols : list label) : option nat :=
  match cols with
  | [] => None
  | c :: r => if label_eqb c l then Some O else S <$> position l r
  end.

Definition label_text (l : label) : string :=
  match l with
  | LName s => s
  | LPos _ => "<position>"
  end.

Fixpoint positions (want cols : list label) : result (list nat) :=
  match want with
  | [] => Ok []
  | l :: r =>
      match position l cols, positions r cols with
      | Some i, Ok js => Ok (i :: js)
      | None, _ => Raise (KeyError (label_text l))
      | _, Raise e => Raise e
      end
  end.

Definition h_columns (t : table) (want : list label) : result table :=
  match positions want (t_columns t) with
  | Ok js =>
      Ok {| t_index := t_index t; t_columns := want;
            t_rows := List.map (λ row, List.map (λ i, nth i row "") js) (t_rows t) |}
  | Raise e => Raise e
  end.

(** No shuffling: every sample is used for training and for testing. *)
Definition h_train_test_split (X y : table) (test_size random_state : value table step)
    : result (table * table * table * table) :=
  match t_rows X with
  | [] => Raise (ExternalError "the resulting train set will be empty")
  | _ => Ok (X, X, y, y)
  end.

Fixpoint dedup (l : list string) : list string :=
  match l with
  | [] => []
  | x :: r => if existsb (String.eqb x) r then dedup r else x :: dedup r
  end.

(** Fitting gives the last step the classes seen in the target. *)
Fixpoint h_fit (st : list (string * step)) (y : table) : list (string * step) :=
  match st with
  | [] => []
  | [(n, e)] =>
      [(n, {| st_class := st_class e;
              st_classes := Some (dedup (List.map (λ r, nth 0 r "") (t_rows y))) |})]
  | x :: r => x :: h_fit r y
  end.

Definition last_classes (st : list (string * step)) : list string :=
  match List.last (List.map (λ x, st_classes (snd x)) st) None with
  | Some cs => cs
  | None => []
  end.

(** Every sample is given the first class with certainty. *)
Definition certain (cs : list string) : list spec_float :=
  match cs with
  | [] => []
  | _ :: r => S754_finite false 1 0 :: List.map (λ _, S754_zero false) r
  end.

Definition log_certain (cs : list string) : list spec_float :=
  match cs with
  | [] => []
  | _ :: r => S754_zero false :: List.map (λ _, S754_infinity true) r
  end.

(** The stand-in for the library checks that the pipeline was fitted, as
    scikit-learn does. *)
Definition if_fitted {A} (p : Pipeline step) (a : A) : result A :=
  if fitted p then Ok a else Raise NotFittedError.

#[export] Instance externals : Externals table step := {|
  get_kwargs := h_get_kwargs;
  get_kwargs_by_type := h_get_kwargs_by_type;
  convert_types := λ t _, Ok t;
  atof := h_atof;
  atoi := h_atoi;
  pd_DataFrame := h_DataFrame;
  table_columns := h_columns;
  train_test_split := h_train_test_split;
  Preprocessor := λ _ _ _ _ _, Ok {| st_class := "Preprocessor"; st_classes := None |};
  construct := λ cls _, Ok {| st_class := cls; st_classes := None |};
  pipeline_insert := λ _ _ _, Raise (AttributeError "Pipeline" "insert");
  steps_fit := λ st _ y, Ok (h_fit st y);
  pipe_score := λ p _ _, if_fitted p (S754_finite false 1 0);
  pipe_predict := λ p X,
    if_fitted p (List.map (λ _, AStr (nth 0 (last_classes (steps p)) "")) (t_rows X));
  pipe_predict_proba := λ p X,
    if_fitted p (List.map (λ _, certain (last_classes (steps p))) (t_rows X));
  pipe_predict_log_proba := λ p X,
    if_fitted p (List.map (λ _, log_certain (last_classes (steps p))) (t_rows X));
  classes_ := λ s,
    match st_classes s with
    | Some cs => Ok cs
    | None => Raise (AttributeError (st_class s) "classes_")
    end;
  write_log := λ _ _, Ok tt
|}.

Definition state : Type := State table step.

(** The process at start: nothing cached, nothing on disk. *)
Definition start : state :=
  {| log_no := 0; model_cache := []; models := []; frames := [];
     disk := ∅; clock := 0; self_model := 0%nat; logfile := None; out := [] |}.

(** A new instance of the class ([__init__] clears [logfile]) running one
    method on the state left by the calls before it. *)
Definition call {A} (c : M table step A) (s : state) : result A * state :=
  c (set_logfile None s).

Definition then_call {A B} (r : result A * state) (c : M table step B)
    : result B * state :=
  call c (snd r).

(** A [setup] request for the model [n]. *)
Definition configure (n : string) : M table step Response :=
  setup false [ {| su_model_name := n;
                   su_estimator_args := "estimator=DecisionTreeClassifier";
                   su_scaler_args := "scaler=StandardScaler, missing=zeros, scale_hashed=true";
                   su_dim_reduction_args := "";
                   su_execution_args := "" |} ].

Definition feature (m n t : string) : FeatRow :=
  {| fr_model_name := m; fr_name := n; fr_variable_type := t;
     fr_data_type := "float"; fr_feature_strategy := "scaling"; fr_hash_features := 0 |}.

Definition cached (s : state) : list string := odict_keys (model_cache s).

End Harness.

(** ** Reasoning about methods *)

Section Logic.
Context {Table Step : Type}.

#[local] Abbreviation M := (M Table Step).
#[local] Abbreviation State := (State Table Step).

(** [stable I c]: [c] keeps [I], whether it returns or raises. *)
Definition stable {A} (I : State → Prop) (c : M A) : Prop :=
  ∀ s, I s → I (c s).2.

(** [post c s Q]: if [c] returns from [s], its value and final state
    satisfy [Q]. *)
Definition post {A} (c : M A) (s : State) (Q : A → State → Prop) : Prop :=
  match c s with
  | (Ok a, s') => Q a s'
  | (Raise _, _) => True
  end.

(** [pure_read c]: [c] never changes the state. *)
Definition pure_read {A} (c : M A) : Prop := ∀ s, (c s).2 = s.

Lemma bind_run {A B} (c : M A) (k : A → M B) s :
  (c ≫= k) s = match c s with
               | (Ok a, s') => k a s'
               | (Raise e, s') => (Raise e, s')
               end.
Proof. reflexivity. Qed.

Lemma bind_Ok {A B} (c : M A) (k : A → M B) s b s' :
  (c ≫= k) s = (Ok b, s') → ∃ a s1, c s = (Ok a, s1) ∧ k a s1 = (Ok b, s').
Proof.
  rewrite bind_run. destruct (c s) as [[a|e] s1]; intros H; [eauto | discriminate].
Qed.

Lemma bind_Ok_intro {A B} (c : M A) (k : A → M B) s a s1 :
  c s = (Ok a, s1) → (c ≫= k) s = k a s1.
Proof. intros H. rewrite bind_run, H. reflexivity. Qed.

Lemma bind_Raise_intro {A B} (c : M A) (k : A → M B) s e s1 :
  c s = (Raise e, s1) → (c ≫= k) s = (Raise e, s1).
Proof. intros H. rewrite bind_run, H. reflexivity. Qed.

Lemma stable_ret {A} I (a : A) : stable I (mret a : M A).
Proof. intros s H. exact H. Qed.

Lemma stable_raise {A} I e : stable I (raise e : M A).
Proof. intros s H. exact H. Qed.

Lemma stable_gets {A} I (f : State → A) : stable I (gets f).
Proof. intros s H. exact H. Qed.

Lemma stable_lift {A} I (r : result A) : stable I (lift r : M A).
Proof. intros s H. exact H. Qed.

Lemma stable_modify I (f : State → State) :
  (∀ s, I s → I (f s)) → stable I (modify f).
Proof. intros Hf s H. apply Hf, H. Qed.

Lemma stable_bind {A B} I (c : M A) (k : A → M B) :
  stable I c → (∀ a, stable I (k a)) → stable I (c ≫= k).
Proof.
  intros Hc Hk s H. rewrite bind_run. specialize (Hc s H).
  destruct (c s) as [[a|e] s1]; simpl in *; [apply Hk, Hc | exact Hc].
Qed.

Lemma stable_when I b (c : M unit) : stable I c → stable I (when b c).
Proof. intros Hc. destruct b; [exact Hc | apply stable_ret]. Qed.

Lemma stable_pure_read {A} I (c : M A) : pure_read c → stable I c.
Proof. intros Hc s H. rewrite Hc. exact H. Qed.

Lemma post_bind {A B} (c : M A) (k : A → M B) s Q :
  post c s (λ a s1, post (k a) s1 Q) → post (c ≫= k) s Q.
Proof.
  unfold post. rewrite bind_run. destruct (c s) as [[a|e] s1]; auto.
Qed.

Lemma post_mono {A} (c : M A) s (Q Q' : A → State → Prop) :
  post c s Q → (∀ a s', Q a s' → Q' a s') → post c s Q'.
Proof. unfold post. destruct (c s) as [[a|e] s1]; auto. Qed.

Lemma post_run {A} (c : M A) s Q a s' : post c s Q → c s = (Ok a, s') → Q a s'.
Proof. unfold post. intros H Hc. rewrite Hc in H. exact H. Qed.

Lemma post_intro {A} (c : M A) s (Q : A → State → Prop) :
  (∀ a s', c s = (Ok a, s') → Q a s') → post c s Q.
Proof. unfold post. destruct (c s) as [[a|e] s1]; auto. Qed.

Lemma post_stable {A} I (c : M A) s :
  stable I c → I s → post c s (λ _ s', I s').
Proof.
  intros Hc H. apply post_intro. intros a s' Hr.
  specialize (Hc s H). rewrite Hr in Hc. exact Hc.
Qed.

Lemma post_and {A} (c : M A) s (Q Q' : A → State → Prop) :
  post c s Q → post c s Q' → post c s (λ a s', Q a s' ∧ Q' a s').
Proof. unfold post. destruct (c s) as [[a|e] s1]; auto. Qed.

End Logic.

(** Splits a successful run of a sequence into the runs of its parts. *)
Ltac inv_bind H :=
  let a := fresh "a" in
  let s := fresh "s" in
  let Hc := fresh "Hc" in
  apply bind_Ok in H as (a & s & Hc & H).

(** Goes through the structure of a method to show an invariant stable. *)
Ltac stable_step :=
  lazymatch goal with
  | |- stable _ (mbind _ _) => apply stable_bind; [| intros ?]
  | |- stable _ (mret _) => apply stable_ret
  | |- stable _ (raise _) => apply stable_raise
  | |- stable _ (gets _) => apply stable_gets
  | |- stable _ (lift _) => apply stable_lift
  | |- stable _ (when _ _) => apply stable_when
  | |- stable _ (match ?x with _ => _ end) => destruct x
  | |- stable _ (if ?x then _ else _) => destruct x
  end.

(** An assignment to the state that the invariant does not look at. *)
Ltac stable_modify_step :=
  lazymatch goal with
  | |- stable _ (modify _) => apply stable_modify; intros ? HH; exact HH
  end.

(** ** Basic facts *)

Section Facts.
Context {Table Step : Type} {E : Externals Table Step}.

#[local] Abbreviation M := (M Table Step).
#[local] Abbreviation State := (State Table Step).
#[local] Abbreviation Model := (Model Table Step).
#[local] Abbreviation value := (value Table Step).

(** *** Ordered dictionaries *)

Lemma odict_del_absent {V} (d : list (string * V)) k :
  odict_contains d k = false → odict_del d k = d.
Proof.
  unfold odict_contains, odict_get, odict_del. intros H.
  apply bool_decide_eq_false in H.
  induction d as [|[k' v] d IH]; simpl in *; [done|].
  destruct (String.eqb k' k) eqn:Hk; simpl in *.
  - exfalso. apply H. eauto.
  - f_equal. apply IH. exact H.
Qed.

Lemma odict_get_del {V} (d : list (string * V)) k : odict_get (odict_del d k) k = None.
Proof.
  unfold odict_get, odict_del. induction d as [|[k' v] d IH]; simpl; [done|].
  destruct (String.eqb k' k) eqn:Hk; simpl; [exact IH|]. rewrite Hk. exact IH.
Qed.

Lemma odict_set_absent {V} (d : list (string * V)) k v :
  odict_get d k = None → odict_set d k v = d ++ [(k, v)].
Proof.
  unfold odict_get. induction d as [|[k' v'] d IH]; simpl; [done|].
  destruct (String.eqb k' k) eqn:Hk; simpl; [discriminate|].
  intros H. f_equal. apply IH, H.
Qed.

Lemma odict_del_none {V} (d : list (string * V)) k :
  odict_get d k = None → odict_del d k = d.
Proof.
  intros H. apply odict_del_absent. unfold odict_contains.
  apply bool_decide_eq_false. rewrite H. intros [? ?]. discriminate.
Qed.

Lemma odict_get_app_last {V} (d : list (string * V)) k v :
  odict_get d k = None → odict_get (d ++ [(k, v)]) k = Some v.
Proof.
  unfold odict_get. induction d as [|[k' v'] d IH]; simpl.
  - rewrite String.eqb_refl. reflexivity.
  - destruct (String.eqb k' k); [discriminate | exact IH].
Qed.

(** *** Running the object accessors *)

Lemma deref_run (s : State) l (m : Model) :
  models s !! l = Some m → deref l s = (Ok m, s).
Proof. intros H. unfold deref. rewrite bind_run. simpl. rewrite H. reflexivity. Qed.

Lemma deref_Ok (s s' : State) l (m : Model) :
  deref l s = (Ok m, s') → s' = s ∧ models s !! l = Some m.
Proof.
  unfold deref. rewrite bind_run. simpl. destruct (models s !! l); intros H.
  - injection H as -> ->. done.
  - discriminate.
Qed.

Lemma model_name_run (s : State) (m : Model) :
  models s !! self_model s = Some m → model_name s = (Ok (name m), s).
Proof.
  intros H. unfold model_name. rewrite bind_run. simpl.
  rewrite bind_run, (deref_run _ _ _ H). reflexivity.
Qed.

Lemma model_getattr_run (s : State) (m : Model) a v :
  models s !! self_model s = Some m → attrs m !! a = Some v →
  model_getattr a s = (Ok v, s).
Proof.
  intros H Ha. unfold model_getattr. rewrite bind_run. simpl.
  rewrite bind_run, (deref_run _ _ _ H). unfold getattr. rewrite Ha. reflexivity.
Qed.

Lemma model_getattr_missing (s : State) (m : Model) a :
  models s !! self_model s = Some m → attrs m !! a = None →
  model_getattr a s = (Raise (AttributeError "PersistentModel" a), s).
Proof.
  intros H Ha. unfold model_getattr. rewrite bind_run. simpl.
  rewrite bind_run, (deref_run _ _ _ H). unfold getattr. rewrite Ha. reflexivity.
Qed.

Lemma model_getattr_Ok (s s' : State) a v :
  model_getattr a s = (Ok v, s') →
  s' = s ∧ ∃ m, models s !! self_model s = Some m ∧ attrs m !! a = Some v.
Proof.
  unfold model_getattr. rewrite bind_run. simpl. rewrite bind_run.
  destruct (deref (self_model s) s) as [[m|e] s1] eqn:Hd; [|discriminate].
  apply deref_Ok in Hd as [-> Hm]. unfold getattr.
  destruct (attrs m !! a) as [v'|] eqn:Ha; [|discriminate].
  intros H. injection H as -> ->. eauto.
Qed.

Lemma model_setattr_run (s : State) (m : Model) a v :
  models s !! self_model s = Some m →
  model_setattr a v s
  = (Ok tt, set_models (<[self_model s := set_attr a v m]> (models s)) s).
Proof.
  intros H. unfold model_setattr, update_model. rewrite bind_run. simpl.
  rewrite bind_run, (deref_run _ _ _ H). reflexivity.
Qed.

Lemma model_setattr_Ok (s s' : State) a v :
  model_setattr a v s = (Ok tt, s') →
  ∃ m, models s !! self_model s = Some m ∧
       s' = set_models (<[self_model s := set_attr a v m]> (models s)) s.
Proof.
  unfold model_setattr, update_model. rewrite bind_run. simpl. rewrite bind_run.
  destruct (deref (self_model s) s) as [[m|e] s1] eqn:Hd; [|discriminate].
  apply deref_Ok in Hd as [-> Hm]. intros H. injection H as <-. eauto.
Qed.

Lemma pure_read_bind {A B} (c : M A) (k : A → M B) :
  pure_read c → (∀ a, pure_read (k a)) → pure_read (c ≫= k).
Proof.
  intros Hc Hk s. rewrite bind_run. specialize (Hc s).
  destruct (c s) as [[a|e] s1]; simpl in *; subst; [apply Hk | reflexivity].
Qed.

Lemma pure_read_deref l : pure_read (deref l : M Model).
Proof. intros s. unfold deref. rewrite bind_run. simpl. by destruct (models s !! l). Qed.

Lemma pure_read_model_getattr a : pure_read (model_getattr a : M value).
Proof.
  unfold model_getattr. apply pure_read_bind; [done|]. intros l.
  apply pure_read_bind; [apply pure_read_deref|]. intros m s.
  unfold getattr. by destruct (attrs m !! a).
Qed.

Lemma pure_read_model_name : pure_read (model_name : M string).
Proof.
  unfold model_name. apply pure_read_bind; [done|]. intros l.
  apply pure_read_bind; [apply pure_read_deref|]. done.
Qed.

Lemma pure_read_deref_frame l : pure_read (deref_frame l : M FeatureFrame).
Proof.
  intros s. unfold deref_frame. rewrite bind_run. simpl. by destruct (frames s !! l).
Qed.

Lemma pure_read_model_features : pure_read (model_features : M FeatureFrame).
Proof.
  unfold model_features. apply pure_read_bind; [apply pure_read_model_getattr|].
  intros v. apply pure_read_bind; [by destruct v|]. intros l. apply pure_read_deref_frame.
Qed.

(** *** Logging leaves the objects, the cache and the disk alone *)

(** An invariant that does not look at the log counter, the log file or
    the output. *)
Definition log_blind (I : State → Prop) : Prop :=
  (∀ s v, I s → I (set_log_no v s)) ∧
  (∀ s v, I s → I (set_logfile v s)) ∧
  (∀ s v, I s → I (set_out v s)).

Lemma stable_emit I e : log_blind I → stable I (emit e : M unit).
Proof. intros (_ & _ & Ho). apply stable_modify. intros s. apply Ho. Qed.

Lemma stable_print_log I k : log_blind I → stable I (_print_log k).
Proof.
  intros HI. pose proof HI as (Hn & Hf & Ho). unfold _print_log.
  repeat stable_step; try (apply stable_modify; intros ?; auto); try apply stable_emit; auto.
Qed.

Lemma stable_debug_log I k : log_blind I → stable I (debug_log k).
Proof.
  intros HI. unfold debug_log. stable_step.
  - apply stable_pure_read, pure_read_model_getattr.
  - stable_step. apply stable_print_log, HI.
Qed.

Lemma stable_print_exception I msg : log_blind I → stable I (_print_exception msg).
Proof.
  intros HI. unfold _print_exception. stable_step; [apply stable_emit, HI | stable_step].
Qed.

Lemma stable_send_table_description I v n :
  log_blind I → stable I (_send_table_description v n).
Proof.
  intros HI. unfold _send_table_description.
  stable_step; [apply stable_debug_log, HI | apply stable_emit, HI].
Qed.

End Facts.

(** Invariants stated on the objects, the cache and the disk are blind to
    the log. *)
Ltac log_blind_tac := split; [| split]; intros ? ? HH; exact HH.

(** ** The model cache *)

Section Cache.
Context {Table Step : Type} {E : Externals Table Step}.

#[local] Abbreviation State := (State Table Step).
#[local] Abbreviation Model := (Model Table Step).

(** The cache after [_update_cache] stores the model [n] held at [l]:
    the oldest entry goes if the cache was full on entry, then any entry
    for [n], and the new entry comes last. *)
Definition cache_after (c : list (string * mloc)) (n : string) (l : mloc)
    : list (string * mloc) :=
  odict_del (if Nat.eqb cache_limit (length c) then odict_popitem_first c else c) n
  ++ [(n, l)].

Lemma update_cache_run (s : State) (m : Model) :
  models s !! self_model s = Some m →
  _update_cache s =
    debug_log 8 (set_model_cache (cache_after (model_cache s) (name m) (self_model s)) s).
Proof.
  intros Hm. unfold _update_cache, cache_after.
  rewrite bind_run. cbn [gets]. rewrite bind_run.
  set (c := if Nat.eqb cache_limit (length (model_cache s))
            then odict_popitem_first (model_cache s) else model_cache s).
  assert (Hpop : when (Nat.eqb cache_limit (length (model_cache s)))
                   (modify (λ s0 : State,
                      set_model_cache (odict_popitem_first (model_cache s0)) s0)) s
                 = (Ok tt, set_model_cache c s)).
  { subst c. destruct (Nat.eqb cache_limit (length (model_cache s))); [reflexivity|].
    destruct s; reflexivity. }
  rewrite Hpop. clear Hpop.
  assert (Hm' : models (set_model_cache c s) !! self_model (set_model_cache c s) = Some m)
    by exact Hm.
  rewrite (bind_Ok_intro _ _ _ _ _ (model_name_run _ _ Hm')).
  rewrite bind_run. cbn [gets]. rewrite bind_run.
  change (model_cache (set_model_cache c s)) with c.
  assert (Hdel : when (odict_contains c (name m))
                   (modify (λ s0 : State,
                      set_model_cache (odict_del (model_cache s0) (name m)) s0))
                   (set_model_cache c s)
                 = (Ok tt, set_model_cache (odict_del c (name m)) s)).
  { destruct (odict_contains c (name m)) eqn:Hc; [reflexivity|].
    rewrite (odict_del_absent _ _ Hc). reflexivity. }
  rewrite Hdel. clear Hdel.
  rewrite bind_run. cbn [gets]. rewrite bind_run. cbn [modify].
  f_equal. cbn [model_cache set_model_cache self_model].
  rewrite odict_set_absent by apply odict_get_del. reflexivity.
Qed.

Lemma update_cache_cache (s : State) (m : Model) :
  models s !! self_model s = Some m →
  model_cache (_update_cache s).2 = cache_after (model_cache s) (name m) (self_model s).
Proof.
  intros Hm. rewrite (update_cache_run _ _ Hm).
  apply (stable_debug_log (λ s', model_cache s' = _) 8); [log_blind_tac | reflexivity].
Qed.

(** A hit changes [self.model] and nothing else but the log. *)
Lemma get_model_hit_run (s : State) (m : Model) (l : mloc) :
  models s !! self_model s = Some m →
  odict_get (model_cache s) (name m) = Some l →
  _get_model s = debug_log 6 (set_self_model l s).
Proof.
  intros Hm Hl. unfold _get_model.
  rewrite (bind_Ok_intro _ _ _ _ _ (model_name_run _ _ Hm)).
  rewrite bind_run. cbn [gets]. rewrite Hl. reflexivity.
Qed.

(** C1 (amended): a cache hit makes [self.model] the cached object and
    leaves the cache as it is, order included: the entry is not promoted.
    So when the next [_update_cache] stores a name that is not cached into
    the full cache, the entry that goes is the first of the cache as it was
    before the hit, even if the hit was on that entry: with the cache
    m1, m2, m3, a hit on m1 and a put of m4 leave m2, m3, m4. *)
Theorem cache_hit_does_not_promote (s : State) (m : Model) (l : mloc) :
  models s !! self_model s = Some m →
  odict_get (model_cache s) (name m) = Some l →
  let s' := (_get_model s).2 in
  model_cache s' = model_cache s ∧
  self_model s' = l ∧
  ∀ (s2 : State) (m' : Model),
    model_cache s2 = model_cache s' →
    models s2 !! self_model s2 = Some m' →
    length (model_cache s) = cache_limit →
    odict_get (model_cache s) (name m') = None →
    model_cache (_update_cache s2).2
    = odict_popitem_first (model_cache s) ++ [(name m', self_model s2)].
Proof.
  intros Hm Hl s'.
  assert (Hc : model_cache s' = model_cache s).
  { subst s'. rewrite (get_model_hit_run _ _ _ Hm Hl).
    apply (stable_debug_log (λ x, model_cache x = _) 6); [log_blind_tac | reflexivity]. }
  split; [exact Hc|]. split.
  { subst s'. rewrite (get_model_hit_run _ _ _ Hm Hl).
    apply (stable_debug_log (λ x, self_model x = _) 6); [log_blind_tac | reflexivity]. }
  intros s2 m' Hc2 Hm' Hfull Hnew.
  rewrite (update_cache_cache _ _ Hm'). unfold cache_after.
  rewrite Hc2, Hc, Hfull, Nat.eqb_refl. f_equal.
  apply odict_del_none. unfold odict_popitem_first.
  destruct (model_cache s) as [|[k v] c]; [exact Hnew|].
  unfold odict_get in *. simpl in *.
  destruct (String.eqb k (name m')); [discriminate | exact Hnew].
Qed.

End Cache.

(** ** Parameters set by [_set_params] *)

Section Params.
Context {Table Step : Type} {E : Externals Table Step}.

#[local] Abbreviation M := (M Table Step).
#[local] Abbreviation State := (State Table Step).
#[local] Abbreviation Model := (Model Table Step).
#[local] Abbreviation value := (value Table Step).

(** [self.model] holds [v] in its attribute [a]. *)
Definition holds (a : string) (v : value) (s : State) : Prop :=
  ∃ m, models s !! self_model s = Some m ∧ attrs m !! a = Some v.

(** [self.model] has no attribute [a]. *)
Definition lacks (a : string) (s : State) : Prop :=
  ∃ m, models s !! self_model s = Some m ∧ attrs m !! a = None.


Lemma holds_log_blind a v : log_blind (holds a v).
Proof. log_blind_tac. Qed.

Lemma lacks_log_blind a : log_blind (lacks a).
Proof. log_blind_tac. Qed.

Lemma holds_getattr a (v : value) (s : State) :
  holds a v s → model_getattr a s = (Ok v, s).
Proof. intros (m & Hm & Ha). by apply (model_getattr_run s m). Qed.

Lemma setattr_holds (s : State) (m : Model) a v :
  models s !! self_model s = Some m → holds a v (model_setattr a v s).2.
Proof.
  intros Hm. rewrite (model_setattr_run _ _ _ _ Hm). exists (set_attr a v m). split.
  - cbn. apply list_lookup_insert_eq. by apply lookup_lt_Some in Hm.
  - cbn. apply lookup_insert_eq.
Qed.

Lemma stable_setattr_holds a v b w :
  a ≠ b → stable (holds a v) (model_setattr b w).
Proof.
  intros Hne s (m & Hm & Ha). rewrite (model_setattr_run _ _ _ _ Hm).
  exists (set_attr b w m). split.
  - cbn. apply list_lookup_insert_eq. by apply lookup_lt_Some in Hm.
  - cbn. rewrite lookup_insert_ne by done. exact Ha.
Qed.

Lemma stable_setattr_lacks a b w :
  a ≠ b → stable (lacks a) (model_setattr b w).
Proof.
  intros Hne s (m & Hm & Ha). rewrite (model_setattr_run _ _ _ _ Hm).
  exists (set_attr b w m). split.
  - cbn. apply list_lookup_insert_eq. by apply lookup_lt_Some in Hm.
  - cbn. rewrite lookup_insert_ne by done. exact Ha.
Qed.

Lemma stable_bind_lift {A B} I (r : result A) (k : A → M B) :
  (∀ a, r = Ok a → stable I (k a)) → stable I (lift r ≫= k).
Proof.
  intros Hk s H. rewrite bind_run. unfold lift.
  destruct r as [a|e]; [by apply Hk | exact H].
Qed.

Lemma stable_if_key I d k (f : string → M unit) :
  (∀ x, d !! k = Some x → stable I (f x)) → stable I (if_key d k f).
Proof.
  intros Hf. unfold if_key. destruct (d !! k); [by apply Hf | apply stable_ret].
Qed.

End Params.



Section Defaults.
Context {Table Step : Type} {E : Externals Table Step}.

#[local] Abbreviation State := (State Table Step).
#[local] Abbreviation Model := (Model Table Step).
#[local] Abbreviation value := (value Table Step).












End Defaults.

(** ** Resolving a model by name *)

Section Resolution.
Context {Table Step : Type} {E : Externals Table Step}.

#[local] Abbreviation M := (M Table Step).
#[local] Abbreviation State := (State Table Step).
#[local] Abbreviation Model := (Model Table Step).
#[local] Abbreviation value := (value Table Step).

(** The feature definitions a model refers to. *)
Definition contract_of (s : State) (m : Model) : option FeatureFrame :=
  match attrs m !! "features_df" with
  | Some (VFrame fl) => frames s !! fl
  | _ => None
  end.

(** The model stored under the name [n], with its feature definitions:
    the cached object if there is one, the snapshot on disk otherwise. *)
Definition resolve (s : State) (n : string) : option (Model * option FeatureFrame) :=
  match odict_get (model_cache s) n with
  | Some l => m ← models s !! l; Some (m, contract_of s m)
  | None => snap ← disk s !! n; Some (snap_model snap, snap_features snap)
  end.

(** The feature definitions stored for [n]. *)
Definition contract (s : State) (n : string) : option FeatureFrame :=
  match resolve s n with
  | Some (_, c) => c
  | None => None
  end.

(** The model stored for [n] has a fitted pipeline. *)
Definition trained (s : State) (n : string) : bool :=
  match resolve s n with
  | Some (m, _) =>
      match attrs m !! "pipe" with
      | Some (VPipe p) => fitted p
      | _ => false
      end
  | None => false
  end.

Lemma new_model_run n (s : State) :
  new_model n s
  = (Ok tt, set_models (models s ++ [{| name := n; attrs := ∅ |}])
              (set_self_model (length (models s)) s)).
Proof.
  unfold new_model, PersistentModel_new, alloc_model, update_model, deref.
  repeat (rewrite bind_run; cbn [gets modify mret M_ret]).
  cbn [models set_models set_self_model].
  rewrite lookup_app_r by done. rewrite Nat.sub_diag. cbn.
  unfold modify. cbn [models set_models set_self_model]. f_equal.
  unfold set_models, set_self_model. cbn. f_equal.
  rewrite insert_app_r_alt by done. rewrite Nat.sub_diag. reflexivity.
Qed.

(** The objects [load] creates from a snapshot. *)
Definition loaded_model (s : State) (snap : Snapshot Table Step) : Model :=
  match snap_features snap with
  | Some _ => set_attr "features_df" (VFrame (length (frames s))) (snap_model snap)
  | None => {| name := name (snap_model snap);
               attrs := delete "features_df" (attrs (snap_model snap)) |}
  end.

Definition loaded_frames (s : State) (snap : Snapshot Table Step) : list FeatureFrame :=
  match snap_features snap with
  | Some df => frames s ++ [df]
  | None => frames s
  end.

Lemma load_run n (s : State) snap :
  disk s !! n = Some snap →
  load n s = (Ok (length (models s)),
              set_models (models s ++ [loaded_model s snap])
                (set_frames (loaded_frames s snap) s)).
Proof.
  intros Hd. unfold load, loaded_model, loaded_frames, alloc_model, alloc_frame.
  rewrite bind_run. cbn [gets]. rewrite Hd.
  destruct (snap_features snap) as [df|];
    repeat (rewrite bind_run; cbn [gets modify mret M_ret]);
    [reflexivity | destruct s; reflexivity].
Qed.

Lemma load_missing n (s : State) :
  disk s !! n = None → load n s = (Raise (NotFoundError n), s).
Proof. intros Hd. unfold load. rewrite bind_run. cbn [gets]. rewrite Hd. reflexivity. Qed.

Lemma contract_of_loaded (s : State) snap :
  contract_of
    (set_models (models s ++ [loaded_model s snap]) (set_frames (loaded_frames s snap) s))
    (loaded_model s snap)
  = snap_features snap.
Proof.
  unfold contract_of, loaded_model, loaded_frames.
  destruct (snap_features snap) as [df|]; cbn.
  - rewrite lookup_insert_eq. cbn. rewrite lookup_app_r by done.
    rewrite Nat.sub_diag. reflexivity.
  - rewrite lookup_delete_eq. reflexivity.
Qed.

Lemma loaded_model_attrs (s : State) snap a :
  a ≠ "features_df" →
  attrs (loaded_model s snap) !! a = attrs (snap_model snap) !! a.
Proof.
  intros Ha. unfold loaded_model. destruct (snap_features snap); cbn.
  - by rewrite lookup_insert_ne.
  - by rewrite lookup_delete_ne.
Qed.

Lemma loaded_model_name (s : State) snap :
  name (loaded_model s snap) = name (snap_model snap).
Proof. unfold loaded_model. by destruct (snap_features snap). Qed.

(** What a method knows of its model once [_get_model] has returned. *)
Definition resolved_as (m : Model) (cf : option FeatureFrame) (s1 : State) : Prop :=
  ∃ m1, models s1 !! self_model s1 = Some m1 ∧
        name m1 = name m ∧
        (∀ a, a ≠ "features_df" → attrs m1 !! a = attrs m !! a) ∧
        contract_of s1 m1 = cf.

Lemma resolved_as_log_blind m cf : log_blind (resolved_as m cf).
Proof. log_blind_tac. Qed.

Lemma debug_log_Ok I k (s s1 : State) :
  log_blind I → I s → debug_log k s = (Ok tt, s1) → I s1.
Proof.
  intros HI H Hr. pose proof (stable_debug_log I k HI s H) as H1.
  rewrite Hr in H1. exact H1.
Qed.

Lemma get_model_miss_run (s : State) (m : Model) snap :
  models s !! self_model s = Some m →
  odict_get (model_cache s) (name m) = None →
  disk s !! name m = Some snap →
  _get_model s
  = (debug_log 7;; _update_cache)
      (set_self_model (length (models s))
         (set_models (models s ++ [loaded_model s snap])
            (set_frames (loaded_frames s snap) s))).
Proof.
  intros Hm Hc Hd. unfold _get_model.
  rewrite (bind_Ok_intro _ _ _ _ _ (model_name_run _ _ Hm)).
  rewrite bind_run. cbn [gets]. rewrite Hc.
  rewrite (bind_Ok_intro _ _ _ _ _ (load_run _ _ _ Hd)).
  rewrite bind_run. reflexivity.
Qed.

(** The state in which [_get_model] runs at the start of a method. *)
Definition entered (n : string) (s : State) : State :=
  set_models (models s ++ [{| name := n; attrs := ∅ |}])
    (set_self_model (length (models s)) s).

Lemma entered_self n (s : State) :
  models (entered n s) !! self_model (entered n s) = Some {| name := n; attrs := ∅ |}.
Proof. cbn. rewrite lookup_app_r by done. by rewrite Nat.sub_diag. Qed.

Lemma enter_run n (s : State) {A} (k : M A) :
  (new_model n;; k) s = k (entered n s).
Proof. rewrite (bind_Ok_intro _ _ _ _ _ (new_model_run n s)). reflexivity. Qed.

(** A model that is neither cached nor on disk, or whose cache entry
    refers to no object, is not found. *)
Lemma get_model_unresolved n (s : State) :
  resolve s n = None → is_raise (_get_model (entered n s)).1 = true.
Proof.
  unfold resolve. intros Hres.
  destruct (odict_get (model_cache s) n) as [l|] eqn:Hc.
  - destruct (models s !! l) as [m|] eqn:Hl; [discriminate|].
    rewrite (get_model_hit_run (entered n s) _ l (entered_self n s)) by exact Hc.
    unfold debug_log, model_getattr. rewrite bind_run, bind_run. cbn [gets].
    rewrite bind_run. unfold deref. rewrite bind_run. cbn [gets].
    cbn [models set_self_model entered set_models self_model].
    apply lookup_ge_None in Hl.
    destruct (decide (l = length (models s))) as [->|Hne].
    + rewrite lookup_app_r by done. rewrite Nat.sub_diag. cbn. reflexivity.
    + rewrite (proj2 (lookup_ge_None _ _)); [reflexivity|].
      rewrite length_app. cbn. lia.
  - destruct (disk s !! n) as [snap|] eqn:Hd; [discriminate|].
    unfold _get_model.
    rewrite (bind_Ok_intro _ _ _ _ _ (model_name_run _ _ (entered_self n s))).
    rewrite bind_run. cbn [gets]. cbn [model_cache entered set_models set_self_model name].
    rewrite Hc. rewrite bind_run.
    rewrite load_missing by exact Hd. reflexivity.
Qed.

Lemma get_model_resolves n (s s1 : State) (m : Model) cf :
  resolve s n = Some (m, cf) →
  _get_model (entered n s) = (Ok tt, s1) →
  resolved_as m cf s1 ∧
  disk s1 = disk s ∧
  (name m = n → odict_get (model_cache s1) n = Some (self_model s1)).
Proof.
  unfold resolve. intros Hres Hrun.
  destruct (odict_get (model_cache s) n) as [l|] eqn:Hc.
  - destruct (models s !! l) as [m'|] eqn:Hl; [|discriminate].
    cbn in Hres. injection Hres as <- <-.
    rewrite (get_model_hit_run (entered n s) _ l (entered_self n s)) in Hrun by exact Hc.
    refine (debug_log_Ok (λ x, resolved_as m' (contract_of s m') x ∧ disk x = disk s ∧
              (name m' = n → odict_get (model_cache x) n = Some (self_model x)))
              6 _ _ _ _ Hrun); [log_blind_tac|].
    split; [|split; [reflexivity | intros _; exact Hc]].
    exists m'. split; [| split; [reflexivity | split; [reflexivity|reflexivity]]].
    cbn. by apply lookup_app_l_Some.
  - destruct (disk s !! n) as [snap|] eqn:Hd; [|discriminate].
    cbn in Hres. injection Hres as <- <-.
    rewrite (get_model_miss_run (entered n s) _ snap (entered_self n s)) in Hrun;
      [| exact Hc | exact Hd].
    apply bind_Ok in Hrun as ([] & s2 & Hc0 & Hrun).
    set (s0 := set_self_model _ _) in Hc0.
    assert (Hself : models s0 !! self_model s0 = Some (loaded_model (entered n s) snap)).
    { subst s0. cbn. rewrite lookup_app_r; rewrite length_app; cbn; [|lia].
      replace (length (models s) + 1 - (length (models s) + 1))%nat with 0%nat by lia.
      reflexivity. }
    assert (Hres0 : resolved_as (snap_model snap) (snap_features snap) s0).
    { exists (loaded_model (entered n s) snap). split; [exact Hself|].
      split; [apply loaded_model_name|]. split; [intros a Ha; by apply loaded_model_attrs|].
      apply contract_of_loaded. }
    pose proof (debug_log_Ok (λ x, models x = models s0 ∧ self_model x = self_model s0 ∧
                  frames x = frames s0 ∧ disk x = disk s ∧ model_cache x = model_cache s)
                  7 s0 s2 ltac:(log_blind_tac) ltac:(repeat split) Hc0)
      as (Hms & Hsm & Hfr & Hdk & Hch).
    assert (Hself2 : models s2 !! self_model s2 = Some (loaded_model (entered n s) snap))
      by (rewrite Hms, Hsm; exact Hself).
    rewrite (update_cache_run _ _ Hself2) in Hrun.
    refine (debug_log_Ok (λ x, resolved_as (snap_model snap) (snap_features snap) x ∧
              disk x = disk s ∧
              (name (snap_model snap) = n →
               odict_get (model_cache x) n = Some (self_model x)))
              8 _ _ _ _ Hrun); [log_blind_tac|].
    split; [| split; [exact Hdk|]].
    + destruct Hres0 as (m1 & Hm1 & Hrest). exists m1. split; [|].
      * cbn. rewrite Hms, Hsm. exact Hm1.
      * destruct Hrest as (? & ? & Hcf). repeat split; try done.
        unfold contract_of in *. cbn. rewrite Hfr. exact Hcf.
    + intros Hn. cbn. unfold cache_after. rewrite loaded_model_name, Hn.
      apply odict_get_app_last, odict_get_del.
Qed.

End Resolution.

(** ** The start of a method *)

Section Entry.
Context {Table Step : Type} {E : Externals Table Step}.

#[local] Abbreviation M := (M Table Step).
#[local] Abbreviation State := (State Table Step).
#[local] Abbreviation Model := (Model Table Step).
#[local] Abbreviation value := (value Table Step).

(** The debug log can be written. *)
Definition log_ok : Prop := ∀ k m, write_log k m = Ok tt.

Lemma run_total {A} (c : M A) (s : State) a : (c s).1 = Ok a → c s = (Ok a, (c s).2).
Proof. destruct (c s) as [r s1]. cbn. by intros ->. Qed.

Lemma print_log_ok k (s : State) : log_ok → (_print_log k s).1 = Ok tt.
Proof.
  intros Hlog. unfold _print_log. rewrite bind_run. cbn [gets].
  destruct (logfile s);
    [rewrite bool_decide_eq_false_2 by done | rewrite bool_decide_eq_true_2 by done];
    cbn [when];
    repeat (rewrite bind_run; cbn [gets modify mret M_ret lift]);
    rewrite ?Hlog; reflexivity.
Qed.

Lemma debug_log_ok k (s : State) v :
  holds "debug" v s → log_ok → (debug_log k s).1 = Ok tt.
Proof.
  intros Hh Hlog. unfold debug_log.
  rewrite (bind_Ok_intro _ _ _ _ _ (holds_getattr _ _ _ Hh)).
  destruct (truthy v); [by apply print_log_ok | reflexivity].
Qed.

(** A call of [debug_log] that leaves a log-blind invariant in place. *)
Lemma debug_log_step I k (s : State) v :
  log_blind I → I s → holds "debug" v s → log_ok →
  ∃ s', debug_log k s = (Ok tt, s') ∧ I s' ∧ holds "debug" v s'.
Proof.
  intros HI H Hh Hlog. exists (debug_log k s).2.
  split; [by apply run_total, (debug_log_ok k s v)|].
  split; [exact (stable_debug_log I k HI s H)|].
  exact (stable_debug_log (holds "debug" v) k (holds_log_blind _ _) s Hh).
Qed.

(** [_get_model] returns for a model that is stored, when the log can be
    written. *)
Lemma get_model_returns n (s : State) (m : Model) cf v :
  resolve s n = Some (m, cf) → attrs m !! "debug" = Some v → log_ok →
  (_get_model (entered n s)).1 = Ok tt.
Proof.
  unfold resolve. intros Hres Hv Hlog.
  destruct (odict_get (model_cache s) n) as [l|] eqn:Hc.
  - destruct (models s !! l) as [m'|] eqn:Hl; [|discriminate].
    cbn in Hres. injection Hres as <- <-.
    rewrite (get_model_hit_run (entered n s) _ l (entered_self n s)) by exact Hc.
    apply (debug_log_ok 6 _ v); [| exact Hlog].
    exists m'. split; [| exact Hv]. cbn. by apply lookup_app_l_Some.
  - destruct (disk s !! n) as [snap|] eqn:Hd; [|discriminate].
    cbn in Hres. injection Hres as <- <-.
    rewrite (get_model_miss_run (entered n s) _ snap (entered_self n s));
      [| exact Hc | exact Hd].
    set (s0 := set_self_model _ _).
    set (lm := loaded_model (entered n s) snap).
    assert (Hself : models s0 !! self_model s0 = Some lm).
    { subst s0 lm. cbn. rewrite lookup_app_r; rewrite length_app; cbn; [|lia].
      replace (length (models s) + 1 - (length (models s) + 1))%nat with 0%nat by lia.
      reflexivity. }
    assert (Hlv : attrs lm !! "debug" = Some v).
    { subst lm. rewrite loaded_model_attrs by discriminate. exact Hv. }
    destruct (debug_log_step (λ x, models x !! self_model x = Some lm) 7 s0 v)
      as (s2 & H7 & Hm2 & Hh2);
      [log_blind_tac | exact Hself | by exists lm | exact Hlog |].
    rewrite (bind_Ok_intro _ _ _ _ _ H7).
    rewrite (update_cache_run _ _ Hm2).
    apply (debug_log_ok 8 _ v); [| exact Hlog].
    exists lm. split; [exact Hm2 | exact Hlv].
Qed.

(** The common start of [get_features], [fit] and [predict] on a stored
    model: [self.model] becomes the stored model. *)
Lemma enter_model n (s : State) (m : Model) cf v :
  resolve s n = Some (m, cf) → attrs m !! "debug" = Some v → log_ok →
  ∃ s1 s2, _get_model (entered n s) = (Ok tt, s1) ∧
           debug_log 3 s1 = (Ok tt, s2) ∧
           resolved_as m cf s2 ∧
           disk s2 = disk s ∧
           (name m = n → odict_get (model_cache s2) n = Some (self_model s2)).
Proof.
  intros Hres Hv Hlog.
  pose proof (run_total _ _ _ (get_model_returns n s m cf v Hres Hv Hlog)) as Hget.
  set (s1 := (_get_model (entered n s)).2) in Hget.
  destruct (get_model_resolves _ _ _ _ _ Hres Hget) as (Hr & Hd & Hc).
  assert (Hh : holds "debug" v s1).
  { destruct Hr as (m1 & Hm1 & _ & Ha & _). exists m1. split; [exact Hm1|].
    rewrite Ha by discriminate. exact Hv. }
  destruct (debug_log_step
              (λ x, resolved_as m cf x ∧ disk x = disk s ∧
                    (name m = n → odict_get (model_cache x) n = Some (self_model x)))
              3 s1 v) as (s2 & H3 & (Hr2 & Hd2 & Hc2) & _);
    [log_blind_tac | done | exact Hh | exact Hlog |].
  exists s1, s2. done.
Qed.

End Entry.

(** ** Calls that raise *)

Section Raising.
Context {Table Step : Type} {E : Externals Table Step}.

#[local] Abbreviation M := (M Table Step).
#[local] Abbreviation State := (State Table Step).
#[local] Abbreviation Model := (Model Table Step).
#[local] Abbreviation value := (value Table Step).

Lemma raises_bind {A B} (c : M A) (k : A → M B) s :
  (∀ a s', c s = (Ok a, s') → is_raise (k a s').1 = true) →
  is_raise ((c ≫= k) s).1 = true.
Proof.
  intros H. rewrite bind_run. destruct (c s) as [[a|e] s1]; [by apply H | reflexivity].
Qed.

Lemma raises_bind_l {A B} (c : M A) (k : A → M B) s :
  is_raise (c s).1 = true → is_raise ((c ≫= k) s).1 = true.
Proof.
  intros H. rewrite bind_run. destruct (c s) as [[a|e] s1]; [discriminate | reflexivity].
Qed.

Lemma pure_read_Ok {A} (c : M A) s a s' : pure_read c → c s = (Ok a, s') → s' = s.
Proof. intros Hc Hr. specialize (Hc s). rewrite Hr in Hc. exact Hc. Qed.

Lemma lift_Ok {A} (r : result A) (s s' : State) a : lift r s = (Ok a, s') → s' = s ∧ r = Ok a.
Proof. unfold lift. intros H. injection H as -> ->. done. Qed.

Lemma lift_run {A} (r : result A) (s : State) : lift r s = (r, s).
Proof. reflexivity. Qed.

Lemma lift_Ok_run {A} (r : result A) (a : A) (s : State) : r = Ok a → lift r s = (Ok a, s).
Proof. by intros ->. Qed.

End Raising.

(** ** [setup] without a selector *)

Section MissingSelector.
Context {Table Step : Type} {E : Externals Table Step}.

#[local] Abbreviation M := (M Table Step).
#[local] Abbreviation State := (State Table Step).
#[local] Abbreviation Model := (Model Table Step).
#[local] Abbreviation value := (value Table Step).

(** The argument string does not give the key [k]. *)
Definition lacks_key (args k : string) : Prop :=
  ∀ d, get_kwargs args = Ok d → d !! k = None.

(** A non-empty estimator or scaler argument string without its selector,
    or dimensionality-reduction arguments without theirs. *)
Definition missing_selector (dim_reduction : bool) (r : SetupRow) : Prop :=
  (su_estimator_args r ≠ "" ∧ lacks_key (su_estimator_args r) "estimator") ∨
  (su_scaler_args r ≠ "" ∧ lacks_key (su_scaler_args r) "scaler") ∨
  (dim_reduction = true ∧ lacks_key (su_dim_reduction_args r) "reduction").

Lemma print_exception_raises msg (s : State) : is_raise (_print_exception msg s).1 = true.
Proof. reflexivity. Qed.

Lemma set_scaler_params_raises sc (s : State) :
  sc ≠ "" → lacks_key sc "scaler" → is_raise (set_scaler_params sc s).1 = true.
Proof.
  intros Hne Hk. unfold set_scaler_params.
  destruct sc as [|c sc]; [done|]. cbn [String.length Nat.ltb Nat.leb when].
  apply raises_bind. intros d s' Hd. apply lift_Ok in Hd as [-> Hd].
  rewrite (Hk d Hd). apply print_exception_raises.
Qed.

Lemma set_estimator_params_raises est (s : State) :
  est ≠ "" → lacks_key est "estimator" → is_raise (set_estimator_params est s).1 = true.
Proof.
  intros Hne Hk. unfold set_estimator_params.
  destruct est as [|c est]; [done|]. cbn [String.length Nat.ltb Nat.leb when].
  apply raises_bind. intros d s' Hd. apply lift_Ok in Hd as [-> Hd].
  rewrite (Hk d Hd). apply print_exception_raises.
Qed.

Lemma set_dim_reduction_params_raises dr (s : State) :
  lacks_key dr "reduction" → is_raise (set_dim_reduction_params (Some dr) s).1 = true.
Proof.
  intros Hk. unfold set_dim_reduction_params.
  apply raises_bind. intros d s' Hd. apply lift_Ok in Hd as [-> Hd].
  rewrite (Hk d Hd). apply print_exception_raises.
Qed.

Lemma set_params_raises dim r (s : State) :
  missing_selector dim r →
  is_raise (_set_params (su_estimator_args r) (su_scaler_args r) (su_execution_args r)
              (if dim then Some (su_dim_reduction_args r) else None) s).1 = true.
Proof.
  intros Hmiss. unfold _set_params.
  apply raises_bind. intros [] s1 _. apply raises_bind. intros [] s2 _.
  destruct Hmiss as [[Hne Hk] | [[Hne Hk] | [-> Hk]]].
  - apply raises_bind. intros [] s3 _.
    by apply raises_bind_l, set_estimator_params_raises.
  - by apply raises_bind_l, set_scaler_params_raises.
  - apply raises_bind. intros [] s3 _. apply raises_bind. intros [] s4 _.
    by apply raises_bind_l, set_dim_reduction_params_raises.
Qed.

(** The attributes that [_set_params] assigns. *)
Definition set_params_attrs : list string :=
  [ "overwrite"; "debug"; "test_size"; "random_state"; "compress"; "retain_data";
    "scaler"; "missing"; "scale_hashed"; "scaler_kwargs";
    "estimator"; "estimator_kwargs"; "reduction"; "dim_reduction_args" ].

(** An invariant that the log and these assignments keep is kept by
    [_set_params]. *)
Lemma stable_set_params I est sc ex dr :
  log_blind I →
  (∀ a v, In a set_params_attrs → stable I (model_setattr a v)) →
  stable I (_set_params est sc ex dr).
Proof.
  intros HI Hset. pose proof HI as (Hn & Hf & Ho).
  assert (Hlog : ∀ k, stable I (_print_log k)) by (intros; by apply stable_print_log).
  assert (Hdbg : ∀ k, stable I (debug_log k)) by (intros; by apply stable_debug_log).
  assert (Hexc : ∀ m, stable I (_print_exception m))
    by (intros; by apply stable_print_exception).
  unfold _set_params, default_execution_params, set_execution_params,
    set_scaler_params, set_estimator_params, set_dim_reduction_params.
  repeat
    lazymatch goal with
    | |- stable _ (model_setattr _ _) => apply Hset; simpl; tauto
    | |- stable _ (_print_log _) => apply Hlog
    | |- stable _ (debug_log _) => apply Hdbg
    | |- stable _ (_print_exception _) => apply Hexc
    | |- stable _ (model_getattr _) => apply stable_pure_read, pure_read_model_getattr
    | |- stable _ (modify _) => apply stable_modify; intros ?; auto
    | |- stable _ (mbind _ (lift _)) => apply stable_bind_lift; intros ? ?
    | |- stable _ (if_key _ _ _) => apply stable_if_key; intros ? ?
    | _ => stable_step
    end.
Qed.

Lemma raises_bind_state {A B} (c : M A) (k : A → M B) (s : State) :
  is_raise (c s).1 = true → ((c ≫= k) s).2 = (c s).2.
Proof.
  intros H. rewrite bind_run. destruct (c s) as [[a|e] s1]; [discriminate | reflexivity].
Qed.

(** An invariant that looks at the disk or the cache only. *)
Lemma stable_setattr_shallow (I : State → Prop) a v :
  (∀ s ms, I s → I (set_models ms s)) → stable I (model_setattr a v).
Proof.
  intros HI. unfold model_setattr, update_model.
  repeat first
    [ apply stable_pure_read, pure_read_deref
    | (lazymatch goal with |- stable _ (modify _) => apply stable_modify; intros ?; auto end)
    | stable_step ].
Qed.

(** What [_print_exception] does: the message is written to standard
    output and the read of [self.debug] raises.  The exception object that
    the caller built for the message is not raised, here or by the
    caller. *)
Lemma print_exception_run msg (s : State) :
  _print_exception msg s
  = (Raise (AttributeError "SKLearnForQlik" "debug"), set_out (out s ++ [Stdout msg]) s).
Proof. reflexivity. Qed.

Definition scaler_message : string :=
  "Arguments for scaling did not include the scaler name e.g StandardScaler".
Definition estimator_message : string :=
  "Arguments for estimator did not include the estimator class e.g. RandomForestClassifier".
Definition reduction_message : string :=
  "Arguments for dimensionality reduction did not include the class e.g. PCA".

(** The outcome of a check that finds its selector missing. *)
Definition check_fails {A} (msg : string) (s : State) : result A * State :=
  (Raise (AttributeError "SKLearnForQlik" "debug"), set_out (out s ++ [Stdout msg]) s).

Lemma set_scaler_params_missing sc d (s : State) :
  sc ≠ "" → get_kwargs sc = Ok d → d !! "scaler" = None →
  set_scaler_params sc s = check_fails scaler_message s.
Proof.
  intros Hne Hd Hk. unfold set_scaler_params.
  destruct sc as [|c sc]; [done|]. cbn [String.length Nat.ltb Nat.leb when].
  rewrite (bind_Ok_intro _ _ _ _ _ (lift_Ok_run _ _ s Hd)). rewrite Hk. reflexivity.
Qed.

Lemma set_estimator_params_missing est d (s : State) :
  est ≠ "" → get_kwargs est = Ok d → d !! "estimator" = None →
  set_estimator_params est s = check_fails estimator_message s.
Proof.
  intros Hne Hd Hk. unfold set_estimator_params.
  destruct est as [|c est]; [done|]. cbn [String.length Nat.ltb Nat.leb when].
  rewrite (bind_Ok_intro _ _ _ _ _ (lift_Ok_run _ _ s Hd)). rewrite Hk. reflexivity.
Qed.

Lemma set_dim_reduction_params_missing dr d (s : State) :
  get_kwargs dr = Ok d → d !! "reduction" = None →
  set_dim_reduction_params (Some dr) s = check_fails reduction_message s.
Proof.
  intros Hd Hk. unfold set_dim_reduction_params.
  rewrite (bind_Ok_intro _ _ _ _ _ (lift_Ok_run _ _ s Hd)). rewrite Hk. reflexivity.
Qed.

(** An exception of [_set_params] is the outcome of [setup]. *)
Lemma setup_raises_in_params (dim : bool) (r : SetupRow) rest (s s1 : State) e :
  _set_params (su_estimator_args r) (su_scaler_args r) (su_execution_args r)
    (if dim then Some (su_dim_reduction_args r) else None) (entered (su_model_name r) s)
  = (Raise e, s1) →
  setup dim (r :: rest) s = (Raise e, s1).
Proof.
  intros H. unfold setup. cbn [first_row]. rewrite bind_run. cbn [mret M_ret].
  rewrite enter_run.
  destruct dim;
    by rewrite (bind_Raise_intro _ _ _ _ _ (bind_Raise_intro _ _ _ _ _ H)).
Qed.

(** C3: a [setup] call whose non-empty estimator arguments lack the key
    [estimator], or whose non-empty scaler arguments lack the key [scaler],
    or whose dimensionality-reduction arguments lack the key [reduction],
    ends in an exception inside [_set_params]: nothing is saved, nothing is
    cached, and the model of the call has no pipeline.  The exception is
    not the one built for the missing key.  When the stages before the
    check return, the call writes the message to standard output and
    raises the [AttributeError] of the read of [self.debug] in
    [_print_exception]; the [Exception] built at lines 644, 662 and 680 is
    passed to that method and never raised. *)
Theorem setup_missing_selector_raises (dim : bool) (r : SetupRow) (rest : list SetupRow)
    (s : State) :
  missing_selector dim r →
  let est := su_estimator_args r in
  let sc := su_scaler_args r in
  let ex := su_execution_args r in
  let dr := su_dim_reduction_args r in
  let s0 := entered (su_model_name r) s in
  let res := setup dim (r :: rest) s in
  is_raise res.1 = true ∧
  disk res.2 = disk s ∧
  model_cache res.2 = model_cache s ∧
  lacks "pipe" res.2 ∧
  (∀ d s1, sc ≠ "" → get_kwargs sc = Ok d → d !! "scaler" = None →
     (default_execution_params;; set_execution_params ex) s0 = (Ok tt, s1) →
     res = check_fails scaler_message s1) ∧
  (∀ d s1, est ≠ "" → get_kwargs est = Ok d → d !! "estimator" = None →
     (default_execution_params;; set_execution_params ex;; set_scaler_params sc) s0
     = (Ok tt, s1) →
     res = check_fails estimator_message s1) ∧
  (∀ d s1, dim = true → get_kwargs dr = Ok d → d !! "reduction" = None →
     (default_execution_params;; set_execution_params ex;; set_scaler_params sc;;
      set_estimator_params est) s0 = (Ok tt, s1) →
     res = check_fails reduction_message s1).
Proof.
  intros Hmiss est sc ex dr s0 res.
  set (params := _set_params est sc ex (if dim then Some dr else None)).
  assert (Hraise : is_raise (params s0).1 = true) by by apply set_params_raises.
  assert (Hres : is_raise res.1 = true ∧ res.2 = (params s0).2).
  { subst res. unfold setup. cbn [first_row]. rewrite bind_run. cbn [mret M_ret].
    rewrite enter_run. fold s0. subst params est sc ex dr.
    destruct dim; (split;
      [ do 2 apply raises_bind_l; exact Hraise
      | rewrite raises_bind_state by (apply raises_bind_l; exact Hraise);
        by rewrite raises_bind_state ]). }
  destruct Hres as [H1 H2]. split; [exact H1|]. rewrite H2.
  split; [| split; [| split; [| split; [| split]]]].
  - apply (stable_set_params (λ x, disk x = disk s)); [log_blind_tac | | reflexivity].
    intros; by apply stable_setattr_shallow.
  - apply (stable_set_params (λ x, model_cache x = model_cache s));
      [log_blind_tac | | reflexivity].
    intros; by apply stable_setattr_shallow.
  - apply (stable_set_params (lacks "pipe")); [apply lacks_log_blind | |].
    + intros a v Hin. apply stable_setattr_lacks. simpl in Hin.
      intros <-. repeat (destruct Hin as [Hin|Hin]; [discriminate|]). done.
    + exists {| name := su_model_name r; attrs := ∅ |}. split; [apply entered_self | done].
  - intros d s1 Hne Hd Hk Hpre. apply setup_raises_in_params. fold s0 est sc ex dr.
    unfold _set_params.
    apply bind_Ok in Hpre as ([] & sa & Hdef & Hex).
    rewrite (bind_Ok_intro _ _ _ _ _ Hdef), (bind_Ok_intro _ _ _ _ _ Hex).
    by rewrite (bind_Raise_intro _ _ _ _ _ (set_scaler_params_missing sc d s1 Hne Hd Hk)).
  - intros d s1 Hne Hd Hk Hpre. apply setup_raises_in_params. fold s0 est sc ex dr.
    unfold _set_params.
    apply bind_Ok in Hpre as ([] & sa & Hdef & Hpre).
    apply bind_Ok in Hpre as ([] & sb & Hex & Hsc).
    rewrite (bind_Ok_intro _ _ _ _ _ Hdef), (bind_Ok_intro _ _ _ _ _ Hex),
      (bind_Ok_intro _ _ _ _ _ Hsc).
    by rewrite (bind_Raise_intro _ _ _ _ _ (set_estimator_params_missing est d s1 Hne Hd Hk)).
  - intros d s1 -> Hd Hk Hpre. apply setup_raises_in_params. fold s0 est sc ex dr.
    unfold _set_params.
    apply bind_Ok in Hpre as ([] & sa & Hdef & Hpre).
    apply bind_Ok in Hpre as ([] & sb & Hex & Hpre).
    apply bind_Ok in Hpre as ([] & sc' & Hsc & Hest).
    rewrite (bind_Ok_intro _ _ _ _ _ Hdef), (bind_Ok_intro _ _ _ _ _ Hex),
      (bind_Ok_intro _ _ _ _ _ Hsc), (bind_Ok_intro _ _ _ _ _ Hest).
    by rewrite (bind_Raise_intro _ _ _ _ _ (set_dim_reduction_params_missing dr d s1 Hd Hk)).
Qed.

End MissingSelector.

(** ** [fit] on a model that cannot be trained *)

Section FitRaises.
Context {Table Step : Type} {E : Externals Table Step}.

#[local] Abbreviation M := (M Table Step).
#[local] Abbreviation State := (State Table Step).
#[local] Abbreviation Model := (Model Table Step).
#[local] Abbreviation value := (value Table Step).

Lemma stable_Ok {A} I (c : M A) (s s' : State) a :
  stable I c → I s → c s = (Ok a, s') → I s'.
Proof. intros Hc H Hr. specialize (Hc s H). rewrite Hr in Hc. exact Hc. Qed.

Lemma stable_model_features I : stable I (model_features : M FeatureFrame).
Proof. apply stable_pure_read, pure_read_model_features. Qed.

Lemma pure_read_first_index d : pure_read (first_index d : M label).
Proof. intros s. unfold first_index. by destruct (frame_index d). Qed.

(** [fit_prepare] assigns [features_df] only. *)
Lemma stable_fit_prepare_holds a (v : value) req :
  a ≠ "features_df" → stable (holds a v) (fit_prepare req).
Proof.
  intros Ha. unfold fit_prepare, alloc_frame.
  repeat first
    [ apply stable_model_features
    | apply stable_pure_read, pure_read_first_index
    | apply stable_setattr_holds; exact Ha
    | stable_modify_step
    | stable_step ].
Qed.

(** [fit_split] assigns the retained samples only. *)
Lemma stable_fit_split_holds a (v : value) X y :
  ¬ In a ["X_train"; "X_test"; "y_train"; "y_test"] →
  stable (holds a v) (fit_split X y).
Proof.
  intros Ha. unfold fit_split.
  repeat first
    [ apply stable_pure_read, pure_read_model_getattr
    | apply stable_setattr_holds; intros ->; apply Ha; simpl; tauto
    | stable_step ].
Qed.

Lemma pure_read_lookup_class table key : pure_read (lookup_class table key : M string).
Proof. intros s. by destruct key. Qed.

Lemma pure_read_construct_preprocessor : pure_read (construct_preprocessor : M Step).
Proof.
  unfold construct_preprocessor.
  repeat first [ apply pure_read_model_features | apply pure_read_model_getattr
               | apply pure_read_bind; [| intros ?] | done ].
Qed.

Lemma pure_read_construct_estimator : pure_read (construct_estimator : M Step).
Proof.
  unfold construct_estimator.
  repeat first [ apply pure_read_lookup_class | apply pure_read_model_getattr
               | apply pure_read_bind; [| intros ?] | done ].
Qed.

(** The lookup of a name that is not a key of the table. *)
Lemma lookup_class_unknown table k (s : State) :
  k ∉ table → lookup_class table (VStr k) s = (Raise (KeyError k), s).
Proof.
  intros Hk. unfold lookup_class, registry_lookup.
  rewrite bool_decide_eq_false_2 by exact Hk. reflexivity.
Qed.

Lemma construct_estimator_unknown k (s : State) :
  holds "estimator" (VStr k) s → k ∉ algorithms →
  construct_estimator s = (Raise (KeyError k), s).
Proof.
  intros Hh Hk. unfold construct_estimator.
  rewrite (bind_Ok_intro _ _ _ _ _ (holds_getattr _ _ _ Hh)). cbv beta.
  by rewrite (bind_Raise_intro _ _ _ _ _ (lookup_class_unknown _ _ s Hk)).
Qed.

Lemma construct_reduction_unknown k (s : State) :
  holds "reduction" (VStr k) s → k ∉ decomposers →
  construct_reduction s = (Raise (KeyError k), s).
Proof.
  intros Hh Hk. unfold construct_reduction.
  rewrite (bind_Ok_intro _ _ _ _ _ (holds_getattr _ _ _ Hh)). cbv beta.
  by rewrite (bind_Raise_intro _ _ _ _ _ (lookup_class_unknown _ _ s Hk)).
Qed.

Lemma fit_build_unknown_estimator k (s : State) :
  holds "estimator" (VStr k) s → k ∉ algorithms → is_raise (fit_build s).1 = true.
Proof.
  intros Hh Hk. unfold fit_build. apply raises_bind. intros prep s1 Hp.
  apply (pure_read_Ok _ _ _ _ pure_read_construct_preprocessor) in Hp as ->.
  apply raises_bind_l. by rewrite (construct_estimator_unknown k s Hh Hk).
Qed.

Lemma fit_build_unknown_reduction k dr (s : State) :
  holds "reduction" (VStr k) s → holds "dim_reduction" dr s → truthy dr = true →
  k ∉ decomposers → is_raise (fit_build s).1 = true.
Proof.
  intros Hh Hdr Htr Hk. unfold fit_build. apply raises_bind. intros prep s1 Hp.
  apply (pure_read_Ok _ _ _ _ pure_read_construct_preprocessor) in Hp as ->.
  apply raises_bind. intros est s1 He.
  apply (pure_read_Ok _ _ _ _ pure_read_construct_estimator) in He as ->.
  apply raises_bind. intros [] s1 H1.
  apply raises_bind. intros [] s2 H2.
  assert (Hh2 : holds "reduction" (VStr k) s2).
  { eapply stable_Ok; [| | exact H2]; [by apply stable_setattr_holds|].
    eapply stable_Ok; [| | exact H1]; [by apply stable_setattr_holds | exact Hh]. }
  assert (Hdr2 : holds "dim_reduction" dr s2).
  { eapply stable_Ok; [| | exact H2]; [by apply stable_setattr_holds|].
    eapply stable_Ok; [| | exact H1]; [by apply stable_setattr_holds | exact Hdr]. }
  rewrite (bind_Ok_intro _ _ _ _ _ (holds_getattr _ _ _ Hdr2)). rewrite Htr. cbn [when].
  apply raises_bind_l. by rewrite (construct_reduction_unknown k s2 Hh2 Hk).
Qed.

(** The state in which [fit] reaches [fit_build] holds what the stored
    model held, the feature definitions and the retained samples apart. *)
Lemma fit_reaches_build r rest (s : State) (m : Model) cf :
  resolve s (fst r) = Some (m, cf) →
  (∀ s1, (∀ a v, ¬ In a ["features_df"; "X_train"; "X_test"; "y_train"; "y_test"] →
                 attrs m !! a = Some v → holds a v s1) →
         is_raise (fit_build s1).1 = true) →
  is_raise (fit (r :: rest) s).1 = true.
Proof.
  intros Hres Hbuild. unfold fit. cbn [first_row]. rewrite bind_run. cbn [mret M_ret].
  rewrite enter_run.
  apply raises_bind. intros [] s1 Hget.
  destruct (get_model_resolves _ _ _ _ _ Hres Hget) as ((m1 & Hm1 & _ & Hattrs & _) & _ & _).
  apply raises_bind. intros [] s2 Hlog.
  apply raises_bind. intros [X y] s3 Hprep.
  apply raises_bind. intros [[[X_train X_test] y_train] y_test] s4 Hsplit.
  apply raises_bind_l, Hbuild. intros a v Ha Hv.
  eapply stable_Ok; [| | exact Hsplit];
    [apply stable_fit_split_holds; simpl in *; tauto|].
  eapply stable_Ok; [| | exact Hprep];
    [apply stable_fit_prepare_holds; intros ->; apply Ha; simpl; tauto|].
  eapply stable_Ok; [| | exact Hlog]; [apply stable_debug_log, holds_log_blind|].
  exists m1. split; [exact Hm1|].
  rewrite Hattrs; [exact Hv | intros ->; apply Ha; simpl; tauto].
Qed.

(** C6: the lookup of an estimator name that is not a key of
    [self.algorithms], and the lookup of a reduction name that is not a key
    of [self.decomposers], raise [KeyError] with that name; and [fit] raises
    for a stored model with such an estimator name, or with dimensionality
    reduction enabled and such a reduction name. *)
Theorem fit_unknown_algorithm_raises (k : string) (r : string * string)
    (rest : list (string * string)) (s : State) (m : Model) cf :
  resolve s (fst r) = Some (m, cf) →
  (k ∉ algorithms →
     (∀ s1 : State, holds "estimator" (VStr k) s1 →
                    construct_estimator s1 = (Raise (KeyError k), s1)) ∧
     (attrs m !! "estimator" = Some (VStr k) →
      is_raise (fit (r :: rest) s).1 = true)) ∧
  (k ∉ decomposers →
     (∀ s1 : State, holds "reduction" (VStr k) s1 →
                    construct_reduction s1 = (Raise (KeyError k), s1)) ∧
     (∀ dr, attrs m !! "dim_reduction" = Some dr → truthy dr = true →
            attrs m !! "reduction" = Some (VStr k) →
            is_raise (fit (r :: rest) s).1 = true)).
Proof.
  intros Hres. split; intros Hk; split.
  - intros s1 Hh. by apply construct_estimator_unknown.
  - intros Hest. apply (fit_reaches_build _ _ _ _ _ Hres). intros s1 Hs1.
    apply (fit_build_unknown_estimator k); [| exact Hk].
    apply Hs1; [simpl; intuition discriminate | exact Hest].
  - intros s1 Hh. by apply construct_reduction_unknown.
  - intros dr Hdr Htr Hred. apply (fit_reaches_build _ _ _ _ _ Hres).
    intros s1 Hs1.
    apply (fit_build_unknown_reduction k dr); [| | exact Htr | exact Hk].
    + apply Hs1; [simpl; intuition discriminate | exact Hred].
    + apply Hs1; [simpl; intuition discriminate | exact Hdr].
Qed.

End FitRaises.

(** ** The target of a training call *)

Section Target.
Context {Table Step : Type} {E : Externals Table Step}.

#[local] Abbreviation M := (M Table Step).
#[local] Abbreviation State := (State Table Step).
#[local] Abbreviation Model := (Model Table Step).
#[local] Abbreviation value := (value Table Step).

Definition target_row (r : label * FeatRow) : bool :=
  String.eqb "target" (fr_variable_type r.2).

Lemma select_map {A} (f : A → bool) (l : list A) :
  select (List.map f l) l = List.filter f l.
Proof. induction l as [|x l IH]; simpl; [done|]. rewrite IH. reflexivity. Qed.

Lemma frame_loc_targets d :
  frows (frame_loc (is_target d) d) = List.filter target_row (frows d).
Proof.
  unfold frame_loc, is_target, variable_types. cbn [frows].
  rewrite List.map_map. apply (select_map target_row).
Qed.

Lemma filter_find {A} (f : A → bool) (l : list A) :
  List.find f l = head (List.filter f l).
Proof. induction l as [|x l IH]; simpl; [done|]. by destruct (f x). Qed.

(** [target.index[0]] is the label of the first target row, whatever
    follows it. *)
Lemma first_index_target d l row (s : State) :
  List.find target_row (frows d) = Some (l, row) →
  first_index (frame_loc (is_target d) d) s = (Ok l, s).
Proof.
  intros Hf. unfold first_index, frame_index. rewrite frame_loc_targets.
  rewrite filter_find in Hf. destruct (List.filter target_row (frows d)) as [|x f]; [done|].
  cbn in Hf. injection Hf as ->. reflexivity.
Qed.

Lemma model_features_Ok (s s' : State) d :
  model_features s = (Ok d, s') →
  s' = s ∧ ∃ m, models s !! self_model s = Some m ∧ contract_of s m = Some d.
Proof.
  intros H. pose proof (pure_read_Ok _ _ _ _ pure_read_model_features H) as ->.
  split; [done|]. unfold model_features in H.
  inv_bind H. apply model_getattr_Ok in Hc as (-> & m & Hm & Ha).
  inv_bind H. destruct a; try discriminate. cbn in Hc. injection Hc as <- <-.
  unfold deref_frame in H. rewrite bind_run in H. cbn [gets] in H.
  destruct (frames s !! l) as [d'|] eqn:Hd; [|discriminate].
  injection H as <-. exists m. split; [done|]. unfold contract_of. by rewrite Ha.
Qed.

Lemma model_features_run (s : State) (m : Model) d :
  models s !! self_model s = Some m → contract_of s m = Some d →
  model_features s = (Ok d, s).
Proof.
  intros Hm Hc. unfold contract_of in Hc.
  destruct (attrs m !! "features_df") as [v|] eqn:Ha; [|discriminate].
  destruct v; try discriminate.
  unfold model_features. rewrite (bind_Ok_intro _ _ _ _ _ (model_getattr_run _ _ _ _ Hm Ha)).
  cbn [as_frame]. rewrite bind_run. cbn [mret M_ret].
  unfold deref_frame. rewrite bind_run. cbn [gets]. by rewrite Hc.
Qed.

(** The message of [target.index[0]] on an empty selection. *)
Definition no_target_error : exn :=
  IndexError "index 0 is out of bounds for axis 0 with size 0".

Lemma first_index_no_target_run d (s : State) :
  List.find target_row (frows d) = None →
  first_index (frame_loc (is_target d) d) s = (Raise no_target_error, s).
Proof.
  intros Hf. unfold first_index, frame_index. rewrite frame_loc_targets.
  rewrite filter_find in Hf. destruct (List.filter target_row (frows d)); [done|discriminate].
Qed.

(** The sample table of [fit]: one row per request row, the columns named
    after the feature definitions. *)
Definition fit_samples (req : list (string * string)) (d : FeatureFrame) : result Table :=
  pd_DataFrame (List.map (λ x, split "|" (snd x)) req) (frame_names d)
    (imap (λ i _, LPos i) req).

(** [fit_prepare] without a target row: the samples are built and
    converted, then [target.index[0]] raises. *)
Lemma fit_prepare_no_target_run req (s : State) (m : Model) d t0 t :
  models s !! self_model s = Some m → contract_of s m = Some d →
  fit_samples req d = Ok t0 → convert_types t0 d = Ok t →
  List.find target_row (frows d) = None →
  fit_prepare req s = (Raise no_target_error, s).
Proof.
  intros Hm Hc Ht0 Ht Hnone. pose proof (model_features_run s m d Hm Hc) as Hd.
  unfold fit_prepare.
  rewrite (bind_Ok_intro _ _ _ _ _ Hd).
  rewrite (bind_Ok_intro _ _ _ _ _ (lift_Ok_run _ _ s Ht0)).
  rewrite (bind_Ok_intro _ _ _ _ _ Hd).
  rewrite (bind_Ok_intro _ _ _ _ _ (lift_Ok_run _ _ s Ht)).
  rewrite (bind_Ok_intro _ _ _ _ _ Hd), (bind_Ok_intro _ _ _ _ _ Hd).
  by rewrite (bind_Raise_intro _ _ _ _ _ (first_index_no_target_run d s Hnone)).
Qed.

(** The model after the update of its feature definitions at line 337:
    a new frame with the rows that are not excluded, and [features_df]
    referring to it. *)
Definition features_reduced (m : Model) (d : FeatureFrame) (s : State) : State :=
  set_models
    (<[self_model s := set_attr "features_df" (VFrame (length (frames s))) m]> (models s))
    (set_frames (frames s ++ [frame_loc (List.map negb (exclusions d)) d]) s).

(** [fit_prepare] with a target row: the target data are the column of
    the first target row. *)
Lemma fit_prepare_run req (s : State) (m : Model) d t0 t l row ty tx :
  models s !! self_model s = Some m → contract_of s m = Some d →
  fit_samples req d = Ok t0 → convert_types t0 d = Ok t →
  List.find target_row (frows d) = Some (l, row) →
  table_columns t [l] = Ok ty →
  table_columns t (frame_index (frame_loc (List.map negb (exclusions d)) d)) = Ok tx →
  fit_prepare req s = (Ok (tx, ty), features_reduced m d s).
Proof.
  intros Hm Hc Ht0 Ht Hfind Hty Htx. pose proof (model_features_run s m d Hm Hc) as Hd.
  unfold fit_prepare.
  rewrite (bind_Ok_intro _ _ _ _ _ Hd).
  rewrite (bind_Ok_intro _ _ _ _ _ (lift_Ok_run _ _ s Ht0)).
  rewrite (bind_Ok_intro _ _ _ _ _ Hd).
  rewrite (bind_Ok_intro _ _ _ _ _ (lift_Ok_run _ _ s Ht)).
  rewrite (bind_Ok_intro _ _ _ _ _ Hd), (bind_Ok_intro _ _ _ _ _ Hd).
  rewrite (bind_Ok_intro _ _ _ _ _ (first_index_target d l row s Hfind)).
  rewrite (bind_Ok_intro _ _ _ _ _ (lift_Ok_run _ _ s Hty)).
  rewrite (bind_Ok_intro _ _ _ _ _ Hd), (bind_Ok_intro _ _ _ _ _ Hd).
  set (dd := frame_loc (List.map negb (exclusions d)) d).
  rewrite bind_run. change (alloc_frame dd s)
    with (Ok (length (frames s)), set_frames (frames s ++ [dd]) s).
  cbv iota beta.
  set (s1 := set_frames (frames s ++ [dd]) s).
  assert (Hm1 : models s1 !! self_model s1 = Some m) by exact Hm.
  rewrite (bind_Ok_intro _ _ _ _ _ (model_setattr_run s1 m _ _ Hm1)).
  set (m' := set_attr "features_df" (VFrame (length (frames s))) m).
  set (s2 := set_models _ s1).
  assert (Hm2 : models s2 !! self_model s2 = Some m').
  { subst s2 s1. cbn. apply list_lookup_insert_eq. by apply lookup_lt_Some in Hm. }
  assert (Hc2 : contract_of s2 m' = Some dd).
  { unfold contract_of. subst m' s2 s1. cbn. rewrite lookup_insert_eq.
    rewrite lookup_app_r by done. by rewrite Nat.sub_diag. }
  rewrite (bind_Ok_intro _ _ _ _ _ (model_features_run s2 m' dd Hm2 Hc2)).
  rewrite (bind_Ok_intro _ _ _ _ _ (lift_Ok_run _ _ s2 Htx)).
  reflexivity.
Qed.

(** The rest of [fit], lines 339-395, on the samples and the target data
    that the lines before it prepared. *)
Definition fit_from (train_test_df target_df : Table) : M Response :=
  '(X_train, X_test, y_train, y_test) ← fit_split train_test_df target_df;
  fit_build;;
  fit_train X_train X_test y_train y_test;;
  l ← save;
  modify (set_self_model l);;
  _update_cache;;
  n ← model_name;
  ts ← model_getattr "state_timestamp";
  est ← model_getattr "estimator";
  score ← model_getattr "score";
  let response :=
    [[AStr n; AStr "Model successfully trained, tested and saved to disk."; time_cell ts;
      AStr (str_cell est +:+ " model has a " +:+ format_score score
            +:+ " accuracy against the test data.");
      score_cell score]] in
  _send_table_description "fit" (length response);;
  debug_log 4;;
  mret response.

Lemma fit_unfold r rest (s : State) :
  fit (r :: rest) s
  = (_get_model;; debug_log 3;;
     p ← fit_prepare (r :: rest); fit_from p.1 p.2) (entered (fst r) s).
Proof.
  unfold fit. cbn [first_row]. rewrite bind_run. cbn [mret M_ret].
  rewrite enter_run. unfold fit_from.
  rewrite !bind_run. destruct (_get_model (entered r.1 s)) as [[[]|e] s1]; [|done].
  rewrite !bind_run. destruct (debug_log 3 s1) as [[[]|e] s2]; [|done].
  rewrite !bind_run. destruct (fit_prepare (r :: rest) s2) as [[[a b]|e] s3]; done.
Qed.

(** C4 (amended): [fit] on a stored model with feature definitions, when
    the sample table is built.  Without a row of role [target], [fit]
    raises the [IndexError] of [target.index[0]].  With one or more, the
    target check raises nothing and nothing counts the rows: the target
    data are the column of the first row with that role, in the order of
    the definitions, also when other target rows follow, and [fit] goes on
    to split, train, score and save with them. *)
Theorem fit_target_check (r : string * string) (rest : list (string * string))
    (s : State) (m : Model) (d : FeatureFrame) (v : value) (t0 t : Table) :
  resolve s (fst r) = Some (m, Some d) →
  attrs m !! "debug" = Some v → log_ok →
  fit_samples (r :: rest) d = Ok t0 →
  convert_types t0 d = Ok t →
  (List.find target_row (frows d) = None →
   (fit (r :: rest) s).1 = Raise no_target_error) ∧
  (∀ l row ty tx,
     List.find target_row (frows d) = Some (l, row) →
     table_columns t [l] = Ok ty →
     table_columns t (frame_index (frame_loc (List.map negb (exclusions d)) d)) = Ok tx →
     ∃ s2 m1,
       (_get_model;; debug_log 3) (entered (fst r) s) = (Ok tt, s2) ∧
       fit_prepare (r :: rest) s2 = (Ok (tx, ty), features_reduced m1 d s2) ∧
       fit (r :: rest) s = fit_from tx ty (features_reduced m1 d s2)).
Proof.
  intros Hres Hv Hlog Ht0 Ht.
  destruct (enter_model (fst r) s m (Some d) v Hres Hv Hlog)
    as (s1 & s2 & Hget & H3 & (m1 & Hm1 & _ & _ & Hcf) & _ & _).
  split.
  - intros Hnone. rewrite fit_unfold.
    rewrite (bind_Ok_intro _ _ _ _ _ Hget), (bind_Ok_intro _ _ _ _ _ H3).
    by rewrite (bind_Raise_intro _ _ _ _ _
                  (fit_prepare_no_target_run _ s2 m1 d t0 t Hm1 Hcf Ht0 Ht Hnone)).
  - intros l row ty tx Hfind Hty Htx.
    pose proof (fit_prepare_run _ s2 m1 d t0 t l row ty tx Hm1 Hcf Ht0 Ht Hfind Hty Htx)
      as Hprep.
    exists s2, m1. split; [| split; [exact Hprep|]].
    + by rewrite (bind_Ok_intro _ _ _ _ _ Hget).
    + rewrite fit_unfold.
      rewrite (bind_Ok_intro _ _ _ _ _ Hget), (bind_Ok_intro _ _ _ _ _ H3).
      by rewrite (bind_Ok_intro _ _ _ _ _ Hprep).
Qed.

End Target.

(** ** [predict] on a model without a fitted pipeline *)

Section Untrained.
Context {Table Step : Type} {E : Externals Table Step}.

#[local] Abbreviation M := (M Table Step).
#[local] Abbreviation State := (State Table Step).
#[local] Abbreviation Model := (Model Table Step).
#[local] Abbreviation value := (value Table Step).

(** What scikit-learn does with a pipeline on which [fit] has not returned:
    its prediction methods raise [NotFittedError].  This is the library's
    side of lines 453, 456 and 473, which call it with no test of their
    own. *)
Definition rejects_unfitted : Prop :=
  ∀ (p : Pipeline Step) (X : Table), fitted p = false →
    pipe_predict p X = Raise NotFittedError ∧
    pipe_predict_proba p X = Raise NotFittedError ∧
    pipe_predict_log_proba p X = Raise NotFittedError.

(** The index of the sample table of [predict]. *)
Definition predict_index (load_script : bool) (req : list PredictRow) : list label :=
  if load_script then List.map (λ x, LName (pr_key x)) req
  else imap (λ i _, LPos i) req.

(** The rest of [predict] once the sample table is there. *)
Definition predict_on (load_script : bool) (variant : string) (req : list PredictRow)
    (s : State) : result Response * State :=
  (d ← model_features;
   X ← lift (pd_DataFrame (List.map (λ x, split "|" (pr_n_features x)) req)
               (frame_names d) (predict_index load_script req));
   d ← model_features;
   X ← lift (convert_types X d);
   y ← (if (String.eqb variant "predict_proba" || String.eqb variant "predict_log_proba")%bool
        then
          pv ← model_getattr "pipe";
          p ← as_pipe pv;
          y ← (if String.eqb variant "predict_proba"
               then lift (pipe_predict_proba p X)
               else lift (pipe_predict_log_proba p X));
          probabilities ← format_probabilities y;
          mret (List.map AStr probabilities)
        else
          pv ← model_getattr "pipe";
          p ← as_pipe pv;
          lift (pipe_predict p X));
   if load_script then
     let response :=
       zip_with (λ x v, [AStr (pr_model_name x); AStr (pr_key x); v]) req y in
     _send_table_description "predict" (length response);;
     debug_log 4;;
     mret response
   else
     debug_log 4;;
     mret (List.map (λ v, [v]) y)) s.

Lemma predict_unfold load_script variant r rest (s : State) :
  predict load_script variant (r :: rest) s
  = (_get_model;; debug_log 3;; predict_on load_script variant (r :: rest))
      (entered (pr_model_name r) s).
Proof.
  unfold predict. cbn [first_row]. rewrite bind_run. cbn [mret M_ret].
  rewrite enter_run. reflexivity.
Qed.

(** A model that is neither cached nor on disk. *)
Lemma get_model_not_found n (s : State) :
  odict_get (model_cache s) n = None → disk s !! n = None →
  _get_model (entered n s) = (Raise (NotFoundError n), entered n s).
Proof.
  intros Hc Hd. unfold _get_model.
  rewrite (bind_Ok_intro _ _ _ _ _ (model_name_run _ _ (entered_self n s))).
  rewrite bind_run. cbn [gets]. cbn [model_cache entered set_models set_self_model name].
  rewrite Hc. rewrite bind_run. rewrite load_missing by exact Hd. reflexivity.
Qed.

(** A stored model without feature definitions is without them after
    [_get_model]. *)
Lemma get_model_lacks_features n (s s1 : State) (m : Model) :
  resolve s n = Some (m, None) → attrs m !! "features_df" = None →
  _get_model (entered n s) = (Ok tt, s1) → lacks "features_df" s1.
Proof.
  unfold resolve. intros Hres Hf Hrun.
  destruct (odict_get (model_cache s) n) as [l|] eqn:Hc.
  - destruct (models s !! l) as [m'|] eqn:Hl; [|discriminate].
    cbn in Hres. injection Hres as <- _.
    rewrite (get_model_hit_run (entered n s) _ l (entered_self n s)) in Hrun by exact Hc.
    refine (debug_log_Ok (lacks "features_df") 6 _ _ (lacks_log_blind _) _ Hrun).
    exists m'. split; [| exact Hf]. cbn. by apply lookup_app_l_Some.
  - destruct (disk s !! n) as [snap|] eqn:Hd; [|discriminate].
    cbn in Hres. injection Hres as <- Hsf.
    rewrite (get_model_miss_run (entered n s) _ snap (entered_self n s)) in Hrun;
      [| exact Hc | exact Hd].
    apply bind_Ok in Hrun as ([] & s2 & Hc0 & Hrun).
    set (s0 := set_self_model _ _) in Hc0.
    set (lm := loaded_model (entered n s) snap) in *.
    assert (Hself : models s0 !! self_model s0 = Some lm).
    { subst s0 lm. cbn. rewrite lookup_app_r; rewrite length_app; cbn; [|lia].
      replace (length (models s) + 1 - (length (models s) + 1))%nat with 0%nat by lia.
      reflexivity. }
    assert (Hlf : attrs lm !! "features_df" = None).
    { subst lm. unfold loaded_model. rewrite Hsf. cbn. apply lookup_delete_eq. }
    pose proof (debug_log_Ok (λ x, models x !! self_model x = Some lm)
                  7 s0 s2 ltac:(log_blind_tac) Hself Hc0) as Hm2.
    rewrite (update_cache_run _ _ Hm2) in Hrun.
    refine (debug_log_Ok (lacks "features_df") 8 _ _ (lacks_log_blind _) _ Hrun).
    exists lm. split; [exact Hm2 | exact Hlf].
Qed.

(** C5: [predict], in each of its variants, raises when the model stored
    under the name of the request has no pipeline on which [fit] has
    returned.  The class makes no test of its own.  For a name that is
    neither cached nor on disk, [load] fails.  For a stored model without
    feature definitions, the read of [features_df] raises
    [AttributeError]; with them and with no pipeline, the read of [pipe]
    does, once the sample table is built.  For a pipeline that was
    assigned and not fitted, the library is called, and the exception is
    the [NotFittedError] with which it rejects such a pipeline. *)
Theorem predict_untrained_raises (load_script : bool) (variant : string)
    (r : PredictRow) (rest : list PredictRow) (s : State) :
  rejects_unfitted →
  trained s (pr_model_name r) = false →
  let n := pr_model_name r in
  let out := (predict load_script variant (r :: rest) s).1 in
  is_raise out = true ∧
  (odict_get (model_cache s) n = None → disk s !! n = None →
   out = Raise (NotFoundError n)) ∧
  (∀ (m : Model) cf v,
     resolve s n = Some (m, cf) → attrs m !! "debug" = Some v → log_ok →
     (cf = None → attrs m !! "features_df" = None →
      out = Raise (AttributeError "PersistentModel" "features_df")) ∧
     (∀ d X0 X,
        cf = Some d →
        pd_DataFrame (List.map (λ x, split "|" (pr_n_features x)) (r :: rest))
          (frame_names d) (predict_index load_script (r :: rest)) = Ok X0 →
        convert_types X0 d = Ok X →
        (attrs m !! "pipe" = None →
         out = Raise (AttributeError "PersistentModel" "pipe")) ∧
        (∀ p, attrs m !! "pipe" = Some (VPipe p) → out = Raise NotFittedError))).
Proof.
  intros Hlib Hun n out. subst out. rewrite predict_unfold. fold n.
  split; [| split].
  - (* in every case *)
    unfold trained in Hun. fold n in Hun.
    destruct (resolve s n) as [[m cf]|] eqn:Hres;
      [| by apply raises_bind_l, get_model_unresolved].
    apply raises_bind. intros [] s1 Hget.
    destruct (get_model_resolves _ _ _ _ _ Hres Hget) as ((m1 & Hm1 & _ & Hattrs & _) & _ & _).
    apply raises_bind. intros [] s2 Hlog.
    assert (Hm2 : models s2 !! self_model s2 = Some m1).
    { refine (debug_log_Ok (λ x, models x !! self_model x = Some m1) 3 _ _ _ _ Hlog);
        [log_blind_tac | exact Hm1]. }
    unfold predict_on.
    apply raises_bind. intros d s3 Hd.
    apply (pure_read_Ok _ _ _ _ pure_read_model_features) in Hd as ->.
    apply raises_bind. intros X0 s3 HX. apply lift_Ok in HX as [-> _].
    apply raises_bind. intros d' s3 Hd'.
    apply (pure_read_Ok _ _ _ _ pure_read_model_features) in Hd' as ->.
    apply raises_bind. intros X s3 HX'. apply lift_Ok in HX' as [-> _].
    apply raises_bind_l.
    assert (Hpipe : ∀ (c : Pipeline Step → M (list atom)),
              (∀ p, attrs m !! "pipe" = Some (VPipe p) → is_raise (c p s2).1 = true) →
              is_raise ((pv ← model_getattr "pipe"; p ← as_pipe pv; c p) s2).1 = true).
    { intros c Hc. apply raises_bind. intros pv s3 Hpv.
      apply model_getattr_Ok in Hpv as (-> & m' & Hm' & Hp).
      assert (m' = m1) as -> by congruence.
      rewrite Hattrs in Hp by discriminate.
      destruct pv; try reflexivity.
      cbn [as_pipe]. rewrite bind_run. cbn [mret M_ret]. by apply Hc. }
    destruct (String.eqb variant "predict_proba" || String.eqb variant "predict_log_proba")%bool;
      apply Hpipe; intros p Hp; rewrite Hp in Hun;
      destruct (Hlib p X Hun) as (H1 & H2 & H3).
    + apply raises_bind_l.
      destruct (String.eqb variant "predict_proba"); rewrite lift_run; cbn [fst];
        [rewrite H2 | rewrite H3]; reflexivity.
    + rewrite lift_run. cbn [fst]. rewrite H1. reflexivity.
  - (* an unknown name *)
    intros Hc Hd. by rewrite (bind_Raise_intro _ _ _ _ _ (get_model_not_found n s Hc Hd)).
  - (* a stored model *)
    intros m cf v Hres Hv Hlog.
    destruct (enter_model n s m cf v Hres Hv Hlog) as (s1 & s2 & Hget & H3 & Hr & _ & _).
    rewrite (bind_Ok_intro _ _ _ _ _ Hget), (bind_Ok_intro _ _ _ _ _ H3).
    destruct Hr as (m1 & Hm1 & _ & Hattrs & Hcf).
    split.
    + intros -> Hf.
      pose proof (get_model_lacks_features n s s1 m Hres Hf Hget) as Hl1.
      pose proof (debug_log_Ok _ 3 _ _ (lacks_log_blind "features_df") Hl1 H3)
        as (m2 & Hm2 & Hf2).
      unfold predict_on, model_features.
      rewrite (bind_Raise_intro _ _ _ _ _
                 (bind_Raise_intro _ _ _ _ _ (model_getattr_missing _ _ _ Hm2 Hf2))).
      reflexivity.
    + intros d X0 X -> HX0 HX.
      pose proof (model_features_run s2 m1 d Hm1 Hcf) as Hd.
      unfold trained in Hun. fold n in Hun. rewrite Hres in Hun.
      unfold predict_on.
      rewrite (bind_Ok_intro _ _ _ _ _ Hd).
      rewrite (bind_Ok_intro _ _ _ _ _ (eq_trans (lift_run _ s2) (f_equal (λ x, (x, s2)) HX0))).
      rewrite (bind_Ok_intro _ _ _ _ _ Hd).
      rewrite (bind_Ok_intro _ _ _ _ _ (eq_trans (lift_run _ s2) (f_equal (λ x, (x, s2)) HX))).
      split.
      * intros Hp. rewrite <- Hattrs in Hp by discriminate.
        pose proof (model_getattr_missing _ _ _ Hm1 Hp) as Hg.
        destruct (String.eqb variant "predict_proba"
                  || String.eqb variant "predict_log_proba")%bool;
          rewrite (bind_Raise_intro _ _ _ _ _ (bind_Raise_intro _ _ _ _ _ Hg));
          reflexivity.
      * intros p Hp. rewrite Hp in Hun.
        destruct (Hlib p X Hun) as (H1 & H2 & H3').
        rewrite <- Hattrs in Hp by discriminate.
        pose proof (model_getattr_run _ _ _ _ Hm1 Hp) as Hg.
        destruct (String.eqb variant "predict_proba"
                  || String.eqb variant "predict_log_proba")%bool;
          rewrite bind_run; rewrite (bind_Ok_intro _ _ _ _ _ Hg);
          cbn [as_pipe]; rewrite (bind_run (mret p)); cbn [mret M_ret].
        -- destruct (String.eqb variant "predict_proba");
             rewrite bind_run, lift_run; [rewrite H2 | rewrite H3']; reflexivity.
        -- rewrite lift_run, H1. reflexivity.
Qed.

End Untrained.


(** ** What a successful call leaves behind *)

Section Stored.
Context {Table Step : Type} {E : Externals Table Step}.

#[local] Abbreviation M := (M Table Step).
#[local] Abbreviation State := (State Table Step).
#[local] Abbreviation Model := (Model Table Step).
#[local] Abbreviation value := (value Table Step).

(** [self.model] is named [n] and refers to the feature definitions [dd]. *)
Definition has_contract (n : string) (dd : FeatureFrame) (s : State) : Prop :=
  ∃ m, models s !! self_model s = Some m ∧ name m = n ∧ contract_of s m = Some dd.

(** The model named [n] with the feature definitions [dd] is [self.model],
    is the object cached under [n], and is the content of the snapshot
    saved under [n]. *)
Definition stored (n : string) (dd : FeatureFrame) (s : State) : Prop :=
  has_contract n dd s ∧
  odict_get (model_cache s) n = Some (self_model s) ∧
  ∃ snap, disk s !! n = Some snap ∧ snap_features snap = Some dd.

Lemma has_contract_log_blind n dd : log_blind (has_contract n dd).
Proof. log_blind_tac. Qed.

Lemma stored_log_blind n dd : log_blind (stored n dd).
Proof. log_blind_tac. Qed.

Lemma stored_contract n dd (s : State) :
  stored n dd s →
  contract s n = Some dd ∧ ∃ snap, disk s !! n = Some snap ∧ snap_features snap = Some dd.
Proof.
  intros ((m & Hm & Hn & Hc) & Hcache & Hdisk). split; [|exact Hdisk].
  unfold contract, resolve. rewrite Hcache, Hm. cbn.
  unfold contract_of in *. exact Hc.
Qed.

Lemma stable_setattr_contract n dd a (v : value) :
  a ≠ "features_df" → stable (has_contract n dd) (model_setattr a v).
Proof.
  intros Hne s (m & Hm & Hn & Hc). rewrite (model_setattr_run _ _ _ _ Hm).
  exists (set_attr a v m). split; [| split; [exact Hn|]].
  - cbn. apply list_lookup_insert_eq. by apply lookup_lt_Some in Hm.
  - unfold contract_of in *. cbn. rewrite lookup_insert_ne by done. exact Hc.
Qed.

Lemma alloc_frame_run d (s : State) :
  alloc_frame d s = (Ok (length (frames s)), set_frames (frames s ++ [d]) s).
Proof. reflexivity. Qed.

(** What [fit_prepare] leaves when it returns: a new frame with the rows
    that are not excluded, and [features_df] referring to it. *)
Lemma fit_prepare_Ok req (s s' : State) X y :
  fit_prepare req s = (Ok (X, y), s') →
  ∃ m d, models s !! self_model s = Some m ∧ contract_of s m = Some d ∧
         has_contract (name m) (frame_loc (List.map negb (exclusions d)) d) s'.
Proof.
  unfold fit_prepare. intros H.
  apply bind_Ok in H as (d & s1 & Hc & H).
  apply model_features_Ok in Hc as (-> & m & Hm & Hd).
  apply bind_Ok in H as (t0 & s1 & Hc & H). apply lift_Ok in Hc as [-> _].
  apply bind_Ok in H as (d1 & s1 & Hc & H). apply model_features_Ok in Hc as (-> & _).
  apply bind_Ok in H as (t1 & s1 & Hc & H). apply lift_Ok in Hc as [-> _].
  apply bind_Ok in H as (d2 & s1 & Hc & H). apply model_features_Ok in Hc as (-> & _).
  apply bind_Ok in H as (d3 & s1 & Hc & H). apply model_features_Ok in Hc as (-> & _).
  apply bind_Ok in H as (tn & s1 & Hc & H).
  apply (pure_read_Ok _ _ _ _ (pure_read_first_index _)) in Hc as ->.
  apply bind_Ok in H as (ty & s1 & Hc & H). apply lift_Ok in Hc as [-> _].
  apply bind_Ok in H as (d4 & s1 & Hc & H).
  apply model_features_Ok in Hc as (-> & m4 & Hm4 & Hd4).
  apply bind_Ok in H as (d5 & s1 & Hc & H).
  apply model_features_Ok in Hc as (-> & m5 & Hm5 & Hd5).
  assert (m4 = m) as -> by congruence. assert (m5 = m) as -> by congruence.
  assert (d4 = d) as -> by congruence. assert (d5 = d) as -> by congruence.
  apply bind_Ok in H as (fl & s1 & Hc & H).
  rewrite alloc_frame_run in Hc. injection Hc as <- <-.
  apply bind_Ok in H as ([] & s1 & Hc & H).
  apply model_setattr_Ok in Hc as (m1 & Hm1 & ->).
  cbn in Hm1. assert (m1 = m) as -> by congruence.
  apply bind_Ok in H as (d6 & s1 & Hc & H). apply model_features_Ok in Hc as (-> & _).
  apply bind_Ok in H as (tx & s1 & Hc & H). apply lift_Ok in Hc as [-> _].
  injection H as _ _ <-.
  exists m, d. split; [exact Hm|]. split; [exact Hd|].
  exists (set_attr "features_df" (VFrame (length (frames s))) m).
  split; [| split; [reflexivity|]].
  - cbn. apply list_lookup_insert_eq. by apply lookup_lt_Some in Hm.
  - unfold contract_of. cbn. rewrite lookup_insert_eq.
    rewrite lookup_app_r by done. by rewrite Nat.sub_diag.
Qed.

Lemma pure_read_as_pipe v : pure_read (as_pipe v : M (Pipeline Step)).
Proof. intros s. by destruct v. Qed.

Lemma pure_read_Pipeline_fit p X y : pure_read (Pipeline_fit p X y : M (Pipeline Step)).
Proof.
  unfold Pipeline_fit. apply pure_read_bind; [done|]. intros st s. reflexivity.
Qed.

Lemma pure_read_construct_reduction : pure_read (construct_reduction : M Step).
Proof.
  unfold construct_reduction.
  repeat first [ apply pure_read_lookup_class | apply pure_read_model_getattr
               | apply pure_read_bind; [| intros ?] | done ].
Qed.

(** Between [fit_prepare] and [save], [fit] does not assign [features_df]
    and creates no frame. *)
Lemma stable_fit_body_contract n dd X y X_train X_test y_train y_test :
  stable (has_contract n dd) (fit_split X y) ∧
  stable (has_contract n dd) fit_build ∧
  stable (has_contract n dd) (fit_train X_train X_test y_train y_test).
Proof.
  unfold fit_split, fit_build, fit_train.
  repeat split;
    repeat first
      [ apply stable_setattr_contract; discriminate
      | apply stable_pure_read, pure_read_model_getattr
      | apply stable_pure_read, pure_read_construct_preprocessor
      | apply stable_pure_read, pure_read_construct_estimator
      | apply stable_pure_read, pure_read_construct_reduction
      | apply stable_pure_read, pure_read_as_pipe
      | apply stable_pure_read, pure_read_Pipeline_fit
      | stable_step ].
Qed.

(** [save] returns [self.model], writes the snapshot of the model with its
    feature definitions under the name of the model, and leaves the cache. *)
Lemma save_Ok n dd (s s' : State) l :
  has_contract n dd s → save s = (Ok l, s') →
  l = self_model s' ∧ has_contract n dd s' ∧
  model_cache s' = model_cache s ∧
  ∃ snap, disk s' !! n = Some snap ∧ snap_features snap = Some dd.
Proof.
  intros (m & Hm & Hn & Hc) H. unfold save in H.
  apply bind_Ok in H as (l0 & s1 & Hg & H). injection Hg as <- <-.
  apply bind_Ok in H as (c & s1 & Hg & H).
  apply (pure_read_Ok _ _ _ _ (pure_read_model_getattr _)) in Hg as ->.
  apply bind_Ok in H as (t & s1 & Hg & H). injection Hg as <- <-.
  apply bind_Ok in H as ([] & s1 & Hg & H). injection Hg as <-.
  apply bind_Ok in H as ([] & s2 & Hg & H).
  unfold update_model in Hg.
  rewrite (bind_Ok_intro _ _ _ _ _
             (deref_run (set_clock (clock s + 1) s) (self_model s) m Hm)) in Hg.
  injection Hg as <-.
  set (m' := set_attr "state_timestamp" (VInt (clock s)) m) in *.
  set (s2 := set_models _ _) in H.
  assert (Hm' : models s2 !! self_model s = Some m').
  { subst s2. cbn. apply list_lookup_insert_eq. by apply lookup_lt_Some in Hm. }
  rewrite (bind_Ok_intro _ _ _ _ _ (deref_run _ _ _ Hm')) in H.
  assert (Hc' : contract_of s2 m' = Some dd).
  { unfold contract_of in *. subst m' s2. cbn. rewrite lookup_insert_ne by done. exact Hc. }
  assert (Hfeats : (match attrs m' !! "features_df" with
                    | Some (VFrame fl) => d ← deref_frame fl; mret (Some d)
                    | _ => mret None
                    end : M (option FeatureFrame)) s2 = (Ok (Some dd), s2)).
  { unfold contract_of in Hc'. destruct (attrs m' !! "features_df") as [[]|]; try discriminate.
    rewrite bind_run. unfold deref_frame. rewrite bind_run. cbn [gets].
    rewrite Hc'. reflexivity. }
  rewrite (bind_Ok_intro _ _ _ _ _ Hfeats) in H.
  apply bind_Ok in H as ([] & s3 & Hg & H). injection Hg as <-. injection H as <- <-.
  split; [reflexivity|]. split; [| split; [reflexivity|]].
  - exists m'. split; [exact Hm' | split; [exact Hn | exact Hc']].
  - eexists. cbn. subst m'. cbn. rewrite Hn. rewrite lookup_insert_eq. split; reflexivity.
Qed.

Lemma set_self_model_same (s : State) : set_self_model (self_model s) s = s.
Proof. by destruct s. Qed.

(** The end of [setup], [set_features] and [fit]: the model is saved and
    cached. *)
Lemma save_and_cache n dd (s s' : State) :
  has_contract n dd s →
  (l ← save; modify (set_self_model l);; _update_cache) s = (Ok tt, s') →
  stored n dd s'.
Proof.
  intros Hh H. apply bind_Ok in H as (l & s1 & Hs & H).
  destruct (save_Ok _ _ _ _ _ Hh Hs) as (-> & Hh1 & Hcache & Hdisk).
  apply bind_Ok in H as ([] & s2 & Hg & H). injection Hg as <-.
  rewrite set_self_model_same in H.
  pose proof Hh1 as (m & Hm & Hn & Hc).
  rewrite (update_cache_run _ _ Hm) in H.
  refine (debug_log_Ok (stored n dd) 8 _ _ (stored_log_blind n dd) _ H).
  split; [exists m; done|]. split; [| exact Hdisk].
  cbn. unfold cache_after. rewrite Hn. apply odict_get_app_last, odict_get_del.
Qed.

(** The rows kept by the update of the feature definitions are those whose
    role is not excluded, target or identifier, in their order. *)
Definition kept_row (r : label * FeatRow) : bool :=
  negb (bool_decide (fr_variable_type r.2 ∈ ["excluded"; "target"; "identifier"])).

Lemma frame_loc_kept d :
  frows (frame_loc (List.map negb (exclusions d)) d) = List.filter kept_row (frows d).
Proof.
  unfold frame_loc, exclusions, variable_types. cbn [frows].
  rewrite !List.map_map. apply (select_map kept_row).
Qed.

(** What [fit] leaves when it returns. *)
Lemma fit_Ok r rest (s s' : State) resp (m : Model) d :
  resolve s (fst r) = Some (m, Some d) → name m = fst r →
  fit (r :: rest) s = (Ok resp, s') →
  stored (fst r) (frame_loc (List.map negb (exclusions d)) d) s' ∧
  ∃ v, holds "debug" v s'.
Proof.
  intros Hres Hname H. unfold fit in H. cbn [first_row] in H.
  rewrite bind_run in H. cbn [mret M_ret] in H. rewrite enter_run in H.
  apply bind_Ok in H as ([] & s1 & Hget & H).
  destruct (get_model_resolves _ _ _ _ _ Hres Hget) as (Hr & _ & _).
  apply bind_Ok in H as ([] & s2 & Hlog & H).
  pose proof (debug_log_Ok _ 3 _ _ (resolved_as_log_blind m (Some d)) Hr Hlog)
    as (m1 & Hm1 & Hn1 & _ & Hcf).
  apply bind_Ok in H as ([X y] & s3 & Hprep & H).
  apply fit_prepare_Ok in Hprep as (m2 & d2 & Hm2 & Hd2 & Hh).
  assert (m2 = m1) as -> by congruence. assert (d2 = d) as -> by congruence.
  rewrite Hn1, Hname in Hh.
  set (dd := frame_loc (List.map negb (exclusions d)) d) in *.
  apply bind_Ok in H as ([[[X_train X_test] y_train] y_test] & s4 & Hsplit & H).
  apply bind_Ok in H as ([] & s5 & Hbuild & H).
  apply bind_Ok in H as ([] & s6 & Htrain & H).
  destruct (stable_fit_body_contract (fst r) dd X y X_train X_test y_train y_test)
    as (Hst1 & Hst2 & Hst3).
  pose proof (stable_Ok _ _ _ _ _ Hst1 Hh Hsplit) as Hh4.
  pose proof (stable_Ok _ _ _ _ _ Hst2 Hh4 Hbuild) as Hh5.
  pose proof (stable_Ok _ _ _ _ _ Hst3 Hh5 Htrain) as Hh6.
  apply bind_Ok in H as (l & s7 & Hsave & H).
  apply bind_Ok in H as ([] & s8 & Hself & H).
  apply bind_Ok in H as ([] & s9 & Hcache & H).
  assert (Hst : stored (fst r) dd s9).
  { apply (save_and_cache _ _ s6); [exact Hh6|].
    rewrite (bind_Ok_intro _ _ _ _ _ Hsave). rewrite (bind_Ok_intro _ _ _ _ _ Hself).
    exact Hcache. }
  apply bind_Ok in H as (n & s10 & Hg & H).
  apply (pure_read_Ok _ _ _ _ pure_read_model_name) in Hg as ->.
  apply bind_Ok in H as (ts & s10 & Hg & H).
  apply (pure_read_Ok _ _ _ _ (pure_read_model_getattr _)) in Hg as ->.
  apply bind_Ok in H as (est & s10 & Hg & H).
  apply (pure_read_Ok _ _ _ _ (pure_read_model_getattr _)) in Hg as ->.
  apply bind_Ok in H as (sc & s10 & Hg & H).
  apply (pure_read_Ok _ _ _ _ (pure_read_model_getattr _)) in Hg as ->.
  apply bind_Ok in H as ([] & s10 & Hsend & H).
  apply bind_Ok in H as ([] & s11 & Hlog4 & H). injection H as _ <-.
  pose proof (stable_Ok _ _ _ _ _
                (stable_send_table_description _ _ _ (stored_log_blind _ _)) Hst Hsend)
    as Hst10.
  split.
  - exact (debug_log_Ok _ 4 _ _ (stored_log_blind _ _) Hst10 Hlog4).
  - unfold debug_log in Hlog4. apply bind_Ok in Hlog4 as (v & s12 & Hg & Hlog4).
    apply model_getattr_Ok in Hg as (-> & mm & Hmm & Hv). exists v.
    assert (Hh10 : holds "debug" v s10) by (exists mm; done).
    destruct (truthy v); [| by injection Hlog4 as <-].
    exact (stable_Ok _ _ _ _ _ (stable_print_log _ 4 (holds_log_blind _ _)) Hh10 Hlog4).
Qed.

End Stored.

(** ** [get_features] *)

Section GetFeatures.
Context {Table Step : Type} {E : Externals Table Step}.

#[local] Abbreviation M := (M Table Step).
#[local] Abbreviation State := (State Table Step).
#[local] Abbreviation Model := (Model Table Step).
#[local] Abbreviation value := (value Table Step).

Lemma features_table_assigned d (s : State) :
  features_table (assign_sort_order d) s = (Ok (response_rows d), s).
Proof. reflexivity. Qed.

(** Two states with the same objects, cache and disk. *)
Definition same_objects (s s' : State) : Prop :=
  models s' = models s ∧ frames s' = frames s ∧ self_model s' = self_model s ∧
  model_cache s' = model_cache s ∧ disk s' = disk s.

Lemma same_objects_log_blind (s : State) : log_blind (same_objects s).
Proof. log_blind_tac. Qed.

Lemma same_objects_refl (s : State) : same_objects s s.
Proof. by repeat split. Qed.

(** What the preparation of the response leaves when it returns: the
    frame the model refers to has the new column, nothing else changed. *)
Lemma prepare_features_Ok (s s' : State) resp :
  prepare_features_response s = (Ok resp, s') →
  ∃ m fl d, models s !! self_model s = Some m ∧
            attrs m !! "features_df" = Some (VFrame fl) ∧
            frames s !! fl = Some d ∧
            resp = response_rows d ∧
            models s' = models s ∧
            frames s' = <[fl := assign_sort_order d]> (frames s) ∧
            self_model s' = self_model s ∧
            model_cache s' = model_cache s ∧
            disk s' = disk s.
Proof.
  unfold prepare_features_response. intros H.
  apply bind_Ok in H as (fv & s1 & Hg & H).
  apply model_getattr_Ok in Hg as (-> & m & Hm & Ha).
  apply bind_Ok in H as (fl & s1 & Hg & H).
  destruct fv; try discriminate. cbn in Hg. injection Hg as <- <-.
  apply bind_Ok in H as ([] & s1 & Hg & H).
  unfold update_frame in Hg. apply bind_Ok in Hg as (d & s2 & Hd & Hg).
  pose proof (pure_read_Ok _ _ _ _ (pure_read_deref_frame _) Hd) as ->.
  unfold deref_frame in Hd. rewrite bind_run in Hd. cbn [gets] in Hd.
  destruct (frames s !! l) as [d0|] eqn:Hfl; [|discriminate]. injection Hd as ->.
  injection Hg as <-.
  set (s1 := set_frames _ s) in H.
  assert (Hd1 : deref_frame l s1 = (Ok (assign_sort_order d), s1)).
  { unfold deref_frame. rewrite bind_run. cbn [gets]. subst s1. cbn.
    rewrite list_lookup_insert_eq by by apply lookup_lt_Some in Hfl. reflexivity. }
  rewrite (bind_Ok_intro _ _ _ _ _ Hd1) in H.
  rewrite (bind_Ok_intro _ _ _ _ _ (features_table_assigned d s1)) in H.
  apply bind_Ok in H as ([] & s2 & Hsend & H).
  apply bind_Ok in H as ([] & s3 & Hlog & H). injection H as <- <-.
  pose proof (stable_Ok _ _ _ _ _
    (stable_send_table_description _ _ _ (same_objects_log_blind s1))
    (same_objects_refl s1) Hsend) as Hs2.
  pose proof (debug_log_Ok (same_objects s1) 4 _ _ (same_objects_log_blind s1) Hs2 Hlog)
    as (H1 & H2 & H3 & H4 & H5).
  exists m, l, d. repeat split; try done.
Qed.

Lemma prepare_features_run (s : State) (m : Model) fl d v :
  models s !! self_model s = Some m →
  attrs m !! "features_df" = Some (VFrame fl) →
  frames s !! fl = Some d →
  attrs m !! "debug" = Some v →
  log_ok →
  (prepare_features_response s).1 = Ok (response_rows d).
Proof.
  intros Hm Ha Hfl Hv Hlog. unfold prepare_features_response.
  rewrite (bind_Ok_intro _ _ _ _ _ (model_getattr_run _ _ _ _ Hm Ha)).
  cbn [as_frame]. rewrite bind_run. cbn [mret M_ret].
  assert (Hd : deref_frame fl s = (Ok d, s)).
  { unfold deref_frame. rewrite bind_run. cbn [gets]. by rewrite Hfl. }
  unfold update_frame. rewrite bind_run, bind_run, Hd. cbn [modify].
  set (s1 := set_frames _ s).
  assert (Hd1 : deref_frame fl s1 = (Ok (assign_sort_order d), s1)).
  { unfold deref_frame. rewrite bind_run. cbn [gets]. subst s1. cbn.
    rewrite list_lookup_insert_eq by by apply lookup_lt_Some in Hfl. reflexivity. }
  rewrite (bind_Ok_intro _ _ _ _ _ Hd1).
  rewrite (bind_Ok_intro _ _ _ _ _ (features_table_assigned d s1)).
  assert (Hh1 : holds "debug" v s1) by (exists m; done).
  destruct (debug_log_step (λ _, True) 5 s1 v) as (s2 & H5 & _ & Hh2);
    [log_blind_tac | done | done | done |].
  unfold _send_table_description.
  rewrite bind_run, (bind_Ok_intro _ _ _ _ _ H5). cbn [emit modify].
  set (s3 := set_out _ s2).
  assert (Hh3 : holds "debug" v s3) by exact Hh2.
  destruct (debug_log_step (λ _, True) 4 s3 v) as (s4 & H4 & _ & _);
    [log_blind_tac | done | done | done |].
  rewrite (bind_Ok_intro _ _ _ _ _ H4). reflexivity.
Qed.

(** [get_features] on a model that is cached, when the log can be
    written. *)
Lemma get_features_run n rest (s : State) dd v :
  stored n dd s → holds "debug" v s → log_ok →
  (get_features (n :: rest) s).1 = Ok (response_rows dd).
Proof.
  intros ((m & Hm & Hn & Hc) & Hcache & _) (m' & Hm' & Hv) Hlog.
  assert (m' = m) as -> by congruence.
  unfold get_features. cbn [first_row]. rewrite bind_run. cbn [mret M_ret].
  rewrite enter_run.
  set (x0 := set_self_model (self_model s) (entered n s)).
  unfold contract_of in Hc.
  destruct (attrs m !! "features_df") as [fv|] eqn:Ha; [|discriminate].
  destruct fv as [| | | | |fl| |]; try discriminate.
  set (Q := λ x : State, models x !! self_model x = Some m ∧ frames x !! fl = Some dd).
  assert (HQ : log_blind Q) by log_blind_tac.
  assert (HQ0 : Q x0).
  { split; [| exact Hc]. subst x0. cbn. by apply lookup_app_l_Some. }
  assert (Hh0 : holds "debug" v x0) by (exists m; split; [apply HQ0 | exact Hv]).
  destruct (debug_log_step Q 6 x0 v HQ HQ0 Hh0 Hlog) as (x1 & H6 & HQ1 & Hh1).
  assert (Hget : _get_model (entered n s) = (Ok tt, x1)).
  { rewrite (get_model_hit_run (entered n s) _ (self_model s) (entered_self n s))
      by exact Hcache.
    exact H6. }
  rewrite (bind_Ok_intro _ _ _ _ _ Hget).
  destruct (debug_log_step Q 3 x1 v HQ HQ1 Hh1 Hlog) as (x2 & H3 & (Hm2 & Hf2) & Hh2).
  rewrite (bind_Ok_intro _ _ _ _ _ H3).
  by apply (prepare_features_run x2 m fl dd v).
Qed.

(** C7: when [fit] returns for a stored model, the feature definitions of
    the model are the rows whose role is not excluded, target or
    identifier, in their order: in the model object that the cache holds
    under the name, through its attribute [features_df], and in the
    snapshot on disk.  A [get_features] call that follows returns these
    rows (when the debug log can be written). *)
Theorem fit_removes_excluded (r : string * string) (rest : list (string * string))
    (s s' : State) resp (m : Model) d :
  resolve s (fst r) = Some (m, Some d) → name m = fst r →
  fit (r :: rest) s = (Ok resp, s') →
  let dd := frame_loc (List.map negb (exclusions d)) d in
  frows dd = List.filter kept_row (frows d) ∧
  (∃ l m' fl, odict_get (model_cache s') (fst r) = Some l ∧
              models s' !! l = Some m' ∧
              name m' = fst r ∧
              attrs m' !! "features_df" = Some (VFrame fl) ∧
              frames s' !! fl = Some dd) ∧
  contract s' (fst r) = Some dd ∧
  (∃ snap, disk s' !! fst r = Some snap ∧ snap_features snap = Some dd) ∧
  (log_ok → ∀ rest', (get_features (fst r :: rest') s').1 = Ok (response_rows dd)).
Proof.
  intros Hres Hname Hfit dd.
  destruct (fit_Ok _ _ _ _ _ _ _ Hres Hname Hfit) as (Hst & v & Hv).
  destruct (stored_contract _ _ _ Hst) as (Hc & Hd).
  split; [apply frame_loc_kept|]. split; [| split; [exact Hc|]]. 
  - destruct Hst as ((m' & Hm' & Hn' & Hcf) & Hcache & _).
    unfold contract_of in Hcf.
    destruct (attrs m' !! "features_df") as [fv|] eqn:Ha; [|discriminate].
    destruct fv as [| | | | |fl| |]; try discriminate.
    by exists (self_model s'), m', fl.
  - split; [exact Hd|].
    intros Hlog rest'. by apply (get_features_run _ _ _ _ v).
Qed.

(** C10: when [get_features] returns for a stored model, the frame that
    the cached model refers to has the column [sort_order] with the values
    1 to the number of rows, in row order, and the same rows.  For a model
    that was cached before the call, it is the same model object and the
    same frame object as before the call: the frame was changed in place. *)
Theorem get_features_adds_sort_order (n : string) (rest : list string)
    (s s' : State) resp (m : Model) d :
  resolve s n = Some (m, Some d) → name m = n →
  get_features (n :: rest) s = (Ok resp, s') →
  (∃ l m' fl, odict_get (model_cache s') n = Some l ∧
              models s' !! l = Some m' ∧
              attrs m' !! "features_df" = Some (VFrame fl) ∧
              frames s' !! fl = Some (assign_sort_order d)) ∧
  sort_order (assign_sort_order d)
    = Some (List.map (λ i, Z.of_nat i + 1) (seq 0 (length (frows d)))) ∧
  frows (assign_sort_order d) = frows d ∧
  (∀ l fl, odict_get (model_cache s) n = Some l →
           attrs m !! "features_df" = Some (VFrame fl) →
           odict_get (model_cache s') n = Some l ∧
           models s' !! l = Some m ∧
           frames s' !! fl = Some (assign_sort_order d)).
Proof.
  intros Hres Hname H. unfold get_features in H. cbn [first_row] in H.
  rewrite bind_run in H. cbn [mret M_ret] in H. rewrite enter_run in H.
  apply bind_Ok in H as ([] & s1 & Hget & H).
  apply bind_Ok in H as ([] & s2 & Hlog & H).
  apply prepare_features_Ok in H
    as (m2 & fl2 & d2 & Hm2 & Ha2 & Hf2 & _ & Hms & Hfs & Hself & Hcache & _).
  destruct (get_model_resolves _ _ _ _ _ Hres Hget) as (Hr & _ & Hc1).
  specialize (Hc1 Hname).
  pose proof (debug_log_Ok
                (λ x, resolved_as m (Some d) x ∧
                      odict_get (model_cache x) n = Some (self_model x))
                3 s1 s2 ltac:(log_blind_tac) (conj Hr Hc1) Hlog)
    as ((m1 & Hm1 & _ & _ & Hcf) & Hc2).
  assert (m1 = m2) as -> by congruence.
  assert (Hd2 : d2 = d).
  { unfold contract_of in Hcf. rewrite Ha2 in Hcf. congruence. }
  subst d2.
  assert (Hnew : frames s' !! fl2 = Some (assign_sort_order d)).
  { rewrite Hfs. apply list_lookup_insert_eq. by apply lookup_lt_Some in Hf2. }
  split; [| split; [reflexivity | split; [reflexivity|]]].
  - exists (self_model s2), m2, fl2. rewrite Hcache, Hms. done.
  - intros l fl Hl Hfl.
    assert (Hml : models s !! l = Some m).
    { unfold resolve in Hres. rewrite Hl in Hres.
      destruct (models s !! l); [|discriminate]. cbn in Hres. congruence. }
    rewrite (get_model_hit_run (entered n s) _ l (entered_self n s)) in Hget by exact Hl.
    pose proof (debug_log_Ok
                  (λ x, models x = models (entered n s) ∧ self_model x = l ∧
                        model_cache x = model_cache s)
                  6 (set_self_model l (entered n s)) s1 ltac:(log_blind_tac)
                  (conj eq_refl (conj eq_refl eq_refl)) Hget) as H1.
    pose proof (debug_log_Ok
                  (λ x, models x = models (entered n s) ∧ self_model x = l ∧
                        model_cache x = model_cache s)
                  3 s1 s2 ltac:(log_blind_tac) H1 Hlog) as (Hms2 & Hl2 & Hch2).
    assert (Hm2' : models s2 !! l = Some m).
    { rewrite Hms2. cbn. by apply lookup_app_l_Some. }
    rewrite Hl2 in Hm2. assert (m2 = m) as -> by congruence.
    assert (fl2 = fl) as -> by congruence.
    rewrite Hcache, Hch2, Hms. done.
Qed.

End GetFeatures.

(** ** The text of the probabilities *)

Section Formatting.










Lemma append_assoc (a b c : string) : (a +:+ b) +:+ c = a +:+ (b +:+ c).
Proof.
  induction a as [|x a IH]; [done|].
  change (String x ((a +:+ b) +:+ c) = String x (a +:+ (b +:+ c))). by rewrite IH.
Qed.

Lemma append_nil_r (a : string) : a +:+ "" = a.
Proof.
  induction a as [|x a IH]; [done|].
  change (String x (a +:+ "") = String x a). by rewrite IH.
Qed.

End Formatting.

Section Probabilities.
Context {Table Step : Type} {E : Externals Table Step}.

#[local] Abbreviation M := (M Table Step).
#[local] Abbreviation State := (State Table Step).
#[local] Abbreviation Model := (Model Table Step).
#[local] Abbreviation value := (value Table Step).

(** One [class: value] pair. *)
Definition class_pair (c : string) (b : spec_float) : string :=
  c +:+ ": " +:+ format_3f b.

(** The string built by the inner loop: every pair after a comma and a
    space. *)
Definition appended (pairs : list string) : string :=
  fold_right (λ p acc, ", " +:+ p +:+ acc) "" pairs.

Lemma appended_join p ps : appended (p :: ps) = ", " +:+ join ", " (p :: ps).
Proof.
  revert p. induction ps as [|q ps IH]; intros p.
  - cbn. by rewrite append_nil_r.
  - change (appended (p :: q :: ps)) with (", " +:+ p +:+ appended (q :: ps)).
    rewrite IH. reflexivity.
Qed.

Lemma drop_appended ps : drop_chars 2 (appended ps) = join ", " ps.
Proof. destruct ps as [|p ps]; [done|]. by rewrite appended_join. Qed.

(** The estimator of the pipeline of [self.model] has the classes [cs]. *)
Definition estimator_classes (cs : list string) (s : State) : Prop :=
  ∃ p k st, holds "pipe" (VPipe p) s ∧ holds "estimation_step" (VInt k) s ∧
            0 <= k ∧ steps p !! Z.to_nat k = Some st ∧ classes_ st.2 = Ok cs.

Lemma class_label_run cs i c (s : State) :
  estimator_classes cs s → cs !! i = Some c → class_label i s = (Ok c, s).
Proof.
  intros (p & k & st & Hp & Hk & Hk0 & Hst & Hcs) Hc. unfold class_label.
  rewrite (bind_Ok_intro _ _ _ _ _ (holds_getattr _ _ _ Hp)). cbn [as_pipe].
  rewrite bind_run. cbn [mret M_ret].
  rewrite (bind_Ok_intro _ _ _ _ _ (holds_getattr _ _ _ Hk)). cbn [as_index].
  rewrite (proj2 (Z.leb_le 0 k) Hk0). rewrite bind_run. cbn [mret M_ret].
  rewrite Hst. rewrite bind_run. unfold lift. rewrite Hcs, Hc. reflexivity.
Qed.

Lemma format_classes_run cs (s : State) :
  estimator_classes cs s →
  ∀ a i acc, (length a + i ≤ length cs)%nat →
    format_classes a acc i s
    = (Ok (acc +:+ appended (zip_with class_pair (drop i cs) a)), s).
Proof.
  intros Hcs. induction a as [|b a IH]; intros i acc Hlen.
  - cbn. destruct (drop i cs); cbn; by rewrite append_nil_r.
  - cbn [length] in Hlen.
    destruct (cs !! i) as [c|] eqn:Hc;
      [| apply lookup_ge_None in Hc; lia].
    cbn [format_classes]. rewrite (bind_Ok_intro _ _ _ _ _ (class_label_run _ _ _ _ Hcs Hc)).
    rewrite IH by lia.
    rewrite (drop_S _ _ _ Hc). cbn [zip_with appended fold_right].
    fold (appended (zip_with class_pair (drop (S i) cs) a)).
    unfold class_pair at 2. rewrite !append_assoc. reflexivity.
Qed.

(** The text of one sample. *)
Definition sample_text (cs : list string) (a : list spec_float) : string :=
  join ", " (zip_with class_pair cs a).

Lemma format_probabilities_run cs (s : State) y :
  estimator_classes cs s →
  Forall (λ a, length a = length cs) y →
  format_probabilities y s = (Ok (List.map (sample_text cs) y), s).
Proof.
  intros Hcs Hy. induction Hy as [|a y Ha Hy IH]; [reflexivity|].
  cbn [format_probabilities].
  assert (Hlen : (length a + 0 ≤ length cs)%nat) by (rewrite Ha; lia).
  rewrite (bind_Ok_intro _ _ _ _ _ (format_classes_run cs s Hcs a 0%nat "" Hlen)).
  rewrite (bind_Ok_intro _ _ _ _ _ IH). cbn [mret M_ret List.map].
  change ("" +:+ ?x) with x. rewrite drop_appended. reflexivity.
Qed.






End Probabilities.

(** ** Runs on concrete requests *)

Module Runs.
Import Harness.

(** Three models configured one after the other: the cache is full. *)
Definition three_models : state :=
  (then_call (then_call (call (configure "m1") start) (configure "m2")) (configure "m3")).2.

(** A later method call that looks up m1: the state when it reaches
    [_get_model]. *)
Definition lookup_m1 : state := (call (new_model "m1") three_models).2.

(** The same call after [_get_model], and a model m4 about to be stored. *)
Definition after_hit : state := (_get_model lookup_m1).2.
Definition store_m4 : state := (call (new_model "m4") after_hit).2.

(** C1, counterexample: with capacity 3, the models m1, m2, m3 are stored,
    m1 is looked up (a hit) and m4 is stored; the cache then holds m2, m3,
    m4: m1 was evicted and m2 was not. *)
Lemma hit_then_put_evicts_m1 :
  cached three_models = ["m1"; "m2"; "m3"] ∧
  (_get_model lookup_m1).1 = Ok tt ∧
  (then_call (_get_model lookup_m1) (configure "m4")).1
    = Ok [[AStr "m4"; AStr "Model successfully saved to disk"; AInt 3]] ∧
  cached (then_call (_get_model lookup_m1) (configure "m4")).2 = ["m2"; "m3"; "m4"] ∧
  ¬ (In "m1" (cached (then_call (_get_model lookup_m1) (configure "m4")).2) ∧
     ¬ In "m2" (cached (then_call (_get_model lookup_m1) (configure "m4")).2)).
Proof.
  repeat split; try (vm_compute; reflexivity).
  intros [_ H]. apply H. vm_compute. auto.
Qed.

(** C1, witness: the hit on m1 in the full cache, then m4 stored. *)
Lemma cache_hit_does_not_promote_witness :
  models lookup_m1 !! self_model lookup_m1 = Some {| name := "m1"; attrs := ∅ |} ∧
  odict_get (model_cache lookup_m1) "m1" = Some 0%nat ∧
  odict_keys (model_cache after_hit) = ["m1"; "m2"; "m3"] ∧
  self_model after_hit = 0%nat ∧
  odict_keys (model_cache (_update_cache store_m4).2) = ["m2"; "m3"; "m4"].
Proof.
  assert (Hm : models lookup_m1 !! self_model lookup_m1
               = Some {| name := "m1"; attrs := ∅ |}) by (vm_compute; reflexivity).
  assert (Hl : odict_get (model_cache lookup_m1) "m1" = Some 0%nat)
    by (vm_compute; reflexivity).
  destruct (cache_hit_does_not_promote lookup_m1 _ _ Hm Hl) as (Hc & Hs & Hput).
  split; [exact Hm|]. split; [exact Hl|]. split.
  { unfold after_hit. rewrite Hc. vm_compute. reflexivity. }
  split; [exact Hs|].
  rewrite (Hput store_m4 {| name := "m4"; attrs := ∅ |}); vm_compute; reflexivity.
Defined.

(** C2, failing input: the cache holds m1, m2, m3 and m2 is configured
    again.  The entry of m1 is evicted although m2 was cached already, and
    the cache is left with two entries. *)
Theorem recache_in_full_cache_evicts :
  cached three_models = ["m1"; "m2"; "m3"] ∧
  (call (configure "m2") three_models).1
    = Ok [[AStr "m2"; AStr "Model successfully saved to disk"; AInt 3]] ∧
  cached (call (configure "m2") three_models).2 = ["m3"; "m2"].
Proof. repeat split; vm_compute; reflexivity. Qed.


(** A model configured, with feature definitions that have two target
    rows, and samples to train it. *)
Definition configured : state := (call (configure "m1") start).2.

Definition two_targets : list FeatRow :=
  [ feature "m1" "f1" "feature"; feature "m1" "id" "identifier";
    feature "m1" "y1" "target"; feature "m1" "y2" "target" ].

Definition defined : state := (call (set_features two_targets) configured).2.

Definition samples : list (string * string) :=
  [ ("m1", "1.0|7|a|b"); ("m1", "2.0|8|b|b"); ("m1", "3.0|9|a|b") ].

Definition fitted_state : state := (fit samples defined).2.

(** The model and the feature definitions stored under a name. *)
Definition model_of (s : state) (n : string) : Model table step :=
  match resolve s n with
  | Some (m, _) => m
  | None => {| name := ""; attrs := ∅ |}
  end.

Definition contract_or_empty (s : state) (n : string) : FeatureFrame :=
  match contract s n with
  | Some d => d
  | None => {| frows := []; sort_order := None |}
  end.

Lemma resolve_defined :
  resolve defined "m1"
  = Some (model_of defined "m1", Some (contract_or_empty defined "m1")).
Proof. vm_compute. reflexivity. Qed.


(** C3, witness: estimator arguments that give a hyper-parameter and no
    estimator. *)
Definition no_estimator : SetupRow :=
  {| su_model_name := "m9";
     su_estimator_args := "n_estimators=10|int";
     su_scaler_args := "scaler=StandardScaler";
     su_dim_reduction_args := "";
     su_execution_args := "" |}.

(** The state in which [_set_params] reaches the check of the estimator
    arguments. *)
Definition before_estimator_check : state :=
  ((default_execution_params;; set_execution_params "";;
    set_scaler_params "scaler=StandardScaler") (entered "m9" configured)).2.

Lemma setup_missing_selector_raises_witness :
  missing_selector false no_estimator ∧
  setup false [no_estimator] configured
  = check_fails estimator_message before_estimator_check ∧
  (setup false [no_estimator] configured).1
  = Raise (AttributeError "SKLearnForQlik" "debug") ∧
  disk (setup false [no_estimator] configured).2 = disk configured ∧
  model_cache (setup false [no_estimator] configured).2 = model_cache configured ∧
  lacks "pipe" (setup false [no_estimator] configured).2.
Proof.
  assert (Hparse : h_get_kwargs "n_estimators=10|int"
                   = Ok (<["n_estimators" := "10|int"]> ∅)) by (vm_compute; reflexivity).
  assert (Hk : (<["n_estimators" := "10|int"]> ∅ : gmap string string) !! "estimator" = None).
  { rewrite lookup_insert_ne by discriminate. apply lookup_empty. }
  assert (H : missing_selector false no_estimator).
  { left. split; [discriminate|]. intros d Hd.
    change (h_get_kwargs "n_estimators=10|int" = Ok d) in Hd.
    rewrite Hparse in Hd. injection Hd as <-. exact Hk. }
  assert (Hpre : (default_execution_params;; set_execution_params "";;
                  set_scaler_params "scaler=StandardScaler") (entered "m9" configured)
                 = (Ok tt, before_estimator_check)).
  { assert (H1 : ((default_execution_params;; set_execution_params "";;
                    set_scaler_params "scaler=StandardScaler")
                     (entered "m9" configured)).1 = Ok tt) by (vm_compute; reflexivity).
    exact (run_total
             (default_execution_params;; set_execution_params "";;
              set_scaler_params "scaler=StandardScaler")
             (entered "m9" configured) tt H1). }
  pose proof (setup_missing_selector_raises false no_estimator [] configured H) as Hthm.
  cbv zeta in Hthm. destruct Hthm as (_ & Hd & Hc & Hl & _ & Hest & _).
  pose proof (Hest _ before_estimator_check ltac:(discriminate) Hparse Hk Hpre) as Hrun.
  split; [exact H|]. split; [exact Hrun|].
  split; [exact (f_equal fst Hrun)|].
  split; [exact Hd|]. split; [exact Hc | exact Hl].
Defined.

(** C4, counterexample: the feature definitions of m1 have two target rows
    and [fit] returns: the first of them, y1, is the target. *)
Lemma fit_with_two_targets_returns :
  List.map (λ r, fr_name r.2)
    (List.filter target_row (frows (contract_or_empty defined "m1"))) = ["y1"; "y2"] ∧
  (call (fit samples) defined).1
  = Ok [[AStr "m1"; AStr "Model successfully trained, tested and saved to disk.";
         AInt 2;
         AStr "DecisionTreeClassifier model has a 1.000 accuracy against the test data.";
         AFloat (S754_finite false 1 0)]] ∧
  is_raise (call (fit samples) defined).1 = false.
Proof. repeat split; vm_compute; reflexivity. Qed.

(** C4, witness: feature definitions without a target row, and a sample
    with one value for each of the two features. *)
Definition no_target : state :=
  (call (set_features [feature "m1" "f1" "feature"; feature "m1" "f2" "feature"])
     configured).2.

Definition table_or_empty (r : result table) : table :=
  match r with
  | Ok t => t
  | Raise _ => {| t_index := []; t_columns := []; t_rows := [] |}
  end.

Definition two_values : table :=
  table_or_empty (fit_samples [("m1", "1.0|7")] (contract_or_empty no_target "m1")).

Lemma harness_log_ok : log_ok.
Proof. intros k m. reflexivity. Qed.

(** The samples of the model with two target rows, their target column
    y1 and their feature column f1. *)
Definition all_columns : table :=
  table_or_empty (fit_samples samples (contract_or_empty defined "m1")).

Definition target_column : table :=
  table_or_empty (table_columns all_columns [LName "y1"]).

Definition feature_columns : table :=
  table_or_empty (table_columns all_columns [LName "f1"]).

Lemma fit_target_check_witness :
  resolve no_target "m1"
  = Some (model_of no_target "m1", Some (contract_or_empty no_target "m1")) ∧
  List.find target_row (frows (contract_or_empty no_target "m1")) = None ∧
  (fit [("m1", "1.0|7")] no_target).1
  = Raise (IndexError "index 0 is out of bounds for axis 0 with size 0") ∧
  List.find target_row (frows (contract_or_empty defined "m1"))
  = Some (LName "y1", feature "m1" "y1" "target") ∧
  t_rows target_column = [["a"]; ["b"]; ["a"]] ∧
  ∃ s2 m1,
    fit_prepare samples s2
    = (Ok (feature_columns, target_column),
       features_reduced m1 (contract_or_empty defined "m1") s2) ∧
    fit samples defined
    = fit_from feature_columns target_column
        (features_reduced m1 (contract_or_empty defined "m1") s2).
Proof.
  assert (Hr : resolve no_target "m1"
               = Some (model_of no_target "m1", Some (contract_or_empty no_target "m1")))
    by (vm_compute; reflexivity).
  assert (Hv : attrs (model_of no_target "m1") !! "debug" = Some (VBool false))
    by (vm_compute; reflexivity).
  assert (Ht0 : fit_samples [("m1", "1.0|7")] (contract_or_empty no_target "m1")
                = Ok two_values) by (vm_compute; reflexivity).
  assert (Ht : convert_types two_values (contract_or_empty no_target "m1") = Ok two_values)
    by reflexivity.
  assert (Hn : List.find target_row (frows (contract_or_empty no_target "m1")) = None)
    by (vm_compute; reflexivity).
  split; [exact Hr|]. split; [exact Hn|].
  split; [exact (proj1 (fit_target_check ("m1", "1.0|7") [] no_target _ _ _ _ _
                          Hr Hv harness_log_ok Ht0 Ht) Hn)|].
  assert (Hv2 : attrs (model_of defined "m1") !! "debug" = Some (VBool false))
    by (vm_compute; reflexivity).
  assert (Ht02 : fit_samples (("m1", "1.0|7|a|b") :: List.tl samples)
                   (contract_or_empty defined "m1") = Ok all_columns)
    by (vm_compute; reflexivity).
  assert (Ht2 : convert_types all_columns (contract_or_empty defined "m1") = Ok all_columns)
    by reflexivity.
  assert (Hf : List.find target_row (frows (contract_or_empty defined "m1"))
               = Some (LName "y1", feature "m1" "y1" "target"))
    by (vm_compute; reflexivity).
  assert (Hty : table_columns all_columns [LName "y1"] = Ok target_column)
    by (vm_compute; reflexivity).
  assert (Htx : table_columns all_columns
                  (frame_index
                     (frame_loc (List.map negb (exclusions (contract_or_empty defined "m1")))
                        (contract_or_empty defined "m1"))) = Ok feature_columns)
    by (vm_compute; reflexivity).
  split; [exact Hf|]. split; [vm_compute; reflexivity|].
  destruct (proj2 (fit_target_check ("m1", "1.0|7|a|b") (List.tl samples) defined _ _ _ _ _
                     resolve_defined Hv2 harness_log_ok Ht02 Ht2)
              _ _ _ _ Hf Hty Htx) as (s2 & m1 & _ & Hprep & Hfit).
  exists s2, m1. split; [exact Hprep | exact Hfit].
Defined.

(** C5, witness: m1 has feature definitions and was never trained. *)
Definition one_sample : PredictRow :=
  {| pr_model_name := "m1"; pr_key := "k1"; pr_n_features := "1.0|7|a|b" |}.

(** The stand-in for the library rejects a pipeline that was not fitted. *)
Lemma harness_rejects_unfitted : rejects_unfitted.
Proof.
  intros p X Hp. cbn [pipe_predict pipe_predict_proba pipe_predict_log_proba externals].
  unfold if_fitted. rewrite Hp. done.
Qed.

Definition four_values : table :=
  table_or_empty
    (pd_DataFrame [split "|" "1.0|7|a|b"] (frame_names (contract_or_empty defined "m1"))
       (predict_index false [one_sample])).

(** The state that a [fit] call leaves when the library raises at line
    369: the pipeline was assigned to the cached model at line 358 and
    was not fitted. *)
Definition interrupted : state :=
  ((_get_model;; debug_log 3;;
    p ← fit_prepare samples;
    fit_split p.1 p.2;;
    fit_build) (entered "m1" defined)).2.

Definition new_pipe : Pipeline step :=
  {| steps := [("preprocessor", {| st_class := "Preprocessor"; st_classes := None |});
               ("estimator", {| st_class := "DecisionTreeClassifier";
                                st_classes := None |})];
     fitted := false |}.

Definition one_feature : PredictRow :=
  {| pr_model_name := "m1"; pr_key := "k1"; pr_n_features := "1.0" |}.

Definition one_value : table :=
  table_or_empty
    (pd_DataFrame [split "|" "1.0"] (frame_names (contract_or_empty interrupted "m1"))
       (predict_index true [one_feature])).

Lemma predict_untrained_raises_witness :
  trained defined "m1" = false ∧
  attrs (model_of defined "m1") !! "pipe" = None ∧
  is_raise (predict false "predict" [one_sample] defined).1 = true ∧
  (predict false "predict" [one_sample] defined).1
  = Raise (AttributeError "PersistentModel" "pipe") ∧
  trained interrupted "m1" = false ∧
  attrs (model_of interrupted "m1") !! "pipe" = Some (VPipe new_pipe) ∧
  (predict true "predict_proba" [one_feature] interrupted).1 = Raise NotFittedError.
Proof.
  assert (H : trained defined "m1" = false) by (vm_compute; reflexivity).
  assert (Hv : attrs (model_of defined "m1") !! "debug" = Some (VBool false))
    by (vm_compute; reflexivity).
  assert (Hp : attrs (model_of defined "m1") !! "pipe" = None)
    by (vm_compute; reflexivity).
  assert (HX0 : pd_DataFrame (List.map (λ x, split "|" (pr_n_features x)) [one_sample])
                  (frame_names (contract_or_empty defined "m1"))
                  (predict_index false [one_sample]) = Ok four_values)
    by (vm_compute; reflexivity).
  assert (HX : convert_types four_values (contract_or_empty defined "m1") = Ok four_values)
    by reflexivity.
  pose proof (predict_untrained_raises false "predict" one_sample [] defined
                harness_rejects_unfitted H) as Hthm.
  cbv zeta in Hthm. destruct Hthm as (Hraise & _ & Hstored).
  destruct (Hstored _ _ _ resolve_defined Hv harness_log_ok) as (_ & Hpipe).
  destruct (Hpipe _ _ _ eq_refl HX0 HX) as (Hnone & _).
  assert (H' : trained interrupted "m1" = false) by (vm_compute; reflexivity).
  assert (Hr' : resolve interrupted "m1"
                = Some (model_of interrupted "m1", Some (contract_or_empty interrupted "m1")))
    by (vm_compute; reflexivity).
  assert (Hv' : attrs (model_of interrupted "m1") !! "debug" = Some (VBool false))
    by (vm_compute; reflexivity).
  assert (Hp' : attrs (model_of interrupted "m1") !! "pipe" = Some (VPipe new_pipe))
    by (vm_compute; reflexivity).
  assert (HX0' : pd_DataFrame (List.map (λ x, split "|" (pr_n_features x)) [one_feature])
                   (frame_names (contract_or_empty interrupted "m1"))
                   (predict_index true [one_feature]) = Ok one_value)
    by (vm_compute; reflexivity).
  assert (HX' : convert_types one_value (contract_or_empty interrupted "m1") = Ok one_value)
    by reflexivity.
  pose proof (predict_untrained_raises true "predict_proba" one_feature [] interrupted
                harness_rejects_unfitted H') as Hthm'.
  cbv zeta in Hthm'. destruct Hthm' as (_ & _ & Hstored').
  destruct (Hstored' _ _ _ Hr' Hv' harness_log_ok) as (_ & Hpipe').
  destruct (Hpipe' _ _ _ eq_refl HX0' HX') as (_ & Hunfitted).
  split; [exact H|]. split; [exact Hp|]. split; [exact Hraise|].
  split; [exact (Hnone Hp)|]. split; [exact H'|]. split; [exact Hp'|].
  exact (Hunfitted new_pipe Hp').
Defined.

(** C6, witness: a model configured with an estimator name that is not
    registered. *)
Definition unknown_estimator : state :=
  (then_call
     (call (setup false
              [ {| su_model_name := "m2";
                   su_estimator_args := "estimator=NoSuchEstimator";
                   su_scaler_args := "scaler=StandardScaler, missing=zeros, scale_hashed=true";
                   su_dim_reduction_args := "";
                   su_execution_args := "" |} ]) start)
     (set_features [feature "m2" "f1" "feature"; feature "m2" "y" "target"])).2.

Lemma fit_unknown_algorithm_raises_witness :
  resolve unknown_estimator "m2"
  = Some (model_of unknown_estimator "m2",
          Some (contract_or_empty unknown_estimator "m2")) ∧
  ("NoSuchEstimator" ∉ algorithms) ∧
  attrs (model_of unknown_estimator "m2") !! "estimator" = Some (VStr "NoSuchEstimator") ∧
  is_raise (fit [("m2", "1.0|a")] unknown_estimator).1 = true.
Proof.
  assert (Hr : resolve unknown_estimator "m2"
               = Some (model_of unknown_estimator "m2",
                       Some (contract_or_empty unknown_estimator "m2")))
    by (vm_compute; reflexivity).
  assert (Hk : "NoSuchEstimator" ∉ algorithms).
  { apply (bool_decide_eq_false_1 ("NoSuchEstimator" ∈ algorithms)). vm_compute. reflexivity. }
  assert (He : attrs (model_of unknown_estimator "m2") !! "estimator"
               = Some (VStr "NoSuchEstimator")) by (vm_compute; reflexivity).
  split; [exact Hr|]. split; [exact Hk|]. split; [exact He|].
  exact (proj2 (proj1 (fit_unknown_algorithm_raises "NoSuchEstimator" ("m2", "1.0|a") []
                         unknown_estimator _ _ Hr) Hk) He).
Defined.

(** C7, witness: m1 trained on the samples. *)
Definition kept_definitions : FeatureFrame :=
  frame_loc (List.map negb (exclusions (contract_or_empty defined "m1")))
    (contract_or_empty defined "m1").

Definition fit_response : Response :=
  [[AStr "m1"; AStr "Model successfully trained, tested and saved to disk.";
    AInt 2;
    AStr "DecisionTreeClassifier model has a 1.000 accuracy against the test data.";
    AFloat (S754_finite false 1 0)]].

Lemma fit_samples_run :
  fit (("m1", "1.0|7|a|b") :: List.tl samples) defined
  = (Ok fit_response, fitted_state).
Proof. vm_compute. reflexivity. Qed.

Lemma fit_removes_excluded_witness :
  name (model_of defined "m1") = "m1" ∧
  List.map (λ r, fr_name r.2) (frows kept_definitions) = ["f1"] ∧
  (∃ l m' fl, odict_get (model_cache fitted_state) "m1" = Some l ∧
              models fitted_state !! l = Some m' ∧
              name m' = "m1" ∧
              attrs m' !! "features_df" = Some (VFrame fl) ∧
              frames fitted_state !! fl = Some kept_definitions) ∧
  contract fitted_state "m1" = Some kept_definitions ∧
  (∃ snap, disk fitted_state !! "m1" = Some snap ∧
           snap_features snap = Some kept_definitions) ∧
  (get_features ["m1"] fitted_state).1 = Ok (response_rows kept_definitions).
Proof.
  assert (Hn : name (model_of defined "m1") = "m1") by (vm_compute; reflexivity).
  pose proof (fit_removes_excluded ("m1", "1.0|7|a|b") (List.tl samples)
                defined fitted_state fit_response
                (model_of defined "m1") (contract_or_empty defined "m1")
                resolve_defined Hn fit_samples_run) as (_ & Hmem & Hc & Hd & Hget).
  split; [exact Hn|]. split; [vm_compute; reflexivity|].
  split; [exact Hmem|]. split; [exact Hc|]. split; [exact Hd|].
  exact (Hget harness_log_ok []).
Defined.








(** C10, witness: [get_features] on m1, cached with its feature
    definitions. *)
Definition features_response : Response :=
  response_rows (contract_or_empty defined "m1").

Lemma get_features_run_m1 :
  get_features ["m1"] defined = (Ok features_response, (get_features ["m1"] defined).2).
Proof.
  assert (H : (get_features ["m1"] defined).1 = Ok features_response)
    by (vm_compute; reflexivity).
  destruct (get_features ["m1"] defined) as [r s2].
  change (r = Ok features_response) in H. by rewrite H.
Qed.

Lemma get_features_adds_sort_order_witness :
  name (model_of defined "m1") = "m1" ∧
  odict_get (model_cache defined) "m1" = Some 0%nat ∧
  attrs (model_of defined "m1") !! "features_df" = Some (VFrame 0%nat) ∧
  sort_order (contract_or_empty defined "m1") = None ∧
  models (get_features ["m1"] defined).2 !! 0%nat = Some (model_of defined "m1") ∧
  frames (get_features ["m1"] defined).2 !! 0%nat
  = Some (assign_sort_order (contract_or_empty defined "m1")) ∧
  sort_order (assign_sort_order (contract_or_empty defined "m1")) = Some [1; 2; 3; 4].
Proof.
  assert (Hn : name (model_of defined "m1") = "m1") by (vm_compute; reflexivity).
  assert (Hl : odict_get (model_cache defined) "m1" = Some 0%nat)
    by (vm_compute; reflexivity).
  assert (Hf : attrs (model_of defined "m1") !! "features_df" = Some (VFrame 0%nat))
    by (vm_compute; reflexivity).
  destruct (get_features_adds_sort_order "m1" [] defined _ _ _ _
              resolve_defined Hn get_features_run_m1) as (_ & _ & _ & Hin).
  destruct (Hin 0%nat 0%nat Hl Hf) as (_ & Hm & Hfr).
  split; [exact Hn|]. split; [exact Hl|]. split; [exact Hf|].
  split; [vm_compute; reflexivity|]. split; [exact Hm|]. split; [exact Hfr|].
  vm_compute. reflexivity.
Defined.
End Runs.
